(** * cos2cos: event intake, migration pipeline and reconciliation sweep

    A shallow embedding of [cos2cos/cos_2_cos.py]: the [FileHandler] class
    and the Flask application built by [create_server], with its three
    closure variables [event_stats], [event_history] and [buckets].

    Python exceptions are modelled by an error monad over the server state,
    the storage client and the wall clock by an interface ([Environment])
    that every statement is parametric in.  Requests are served one after
    the other.  The calls to [logging] are left out: they change nothing a
    handler reads.  [start_server] only reads the configuration, refuses an
    empty bucket name, and hands the two names to [create_server]; they are
    strings here. *)

From Stdlib Require Import ZArith String List Lia.
From Stdlib Require Import Floats.PrimFloat.
From stdpp Require Import base option list gmap strings pretty sorting.

Open Scope Z_scope.
Open Scope string_scope.
Open Scope list_scope.

(** ** Python values produced by [request.get_json]

    [json.loads] maps JSON to [None], [bool], [int], [float], [str], [list]
    and [dict].  A [dict] is kept as its item list in insertion order (the
    keys of a parsed object are pairwise distinct strings). *)

#[local] Set Warnings "-register-all".
Inductive json : Type :=
| JNull
| JBool (b : bool)
| JInt (z : Z)
| JFloat (f : float)
| JStr (s : string)
| JArr (items : list json)
| JObj (items : list (string * json)).

(** Python truth value testing, as used by [if event:]. *)
Definition truthy (v : json) : bool :=
  match v with
  | JNull => false
  | JBool b => b
  | JInt z => negb (Z.eqb z 0)
  | JFloat f => negb (PrimFloat.eqb f PrimFloat.zero)
  | JStr s => negb (String.eqb s EmptyString)
  | JArr items => match items with [] => false | _ :: _ => true end
  | JObj items => match items with [] => false | _ :: _ => true end
  end.

(** [v != s] for a configured bucket name [s], which is a [str]: only a
    [str] with the same characters compares equal to it. *)
Definition py_ne_str (v : json) (s : string) : bool :=
  match v with
  | JStr t => negb (String.eqb t s)
  | _ => true
  end.

Fixpoint dict_get (items : list (string * json)) (k : string) : option json :=
  match items with
  | [] => None
  | (k', v) :: rest => if String.eqb k' k then Some v else dict_get rest k
  end.

(** ** Exceptions *)

(** [cos.COSError]; the class lives in the [cos] module, only its name is
    used here. *)
Inductive COSError : Type := mkCOSError (message : string).

Inductive exn : Type :=
| ExCOS (e : COSError)          (* cos.COSError *)
| ExKeyError (k : string)       (* KeyError *)
| ExTypeError                   (* TypeError: value is not subscriptable by a str *)
| ExHTTP (code : Z).            (* werkzeug HTTPException raised by abort(code) *)

Inductive result (A : Type) : Type :=
| Return (a : A)
| Raise (e : exn).
Arguments Return {A} a.
Arguments Raise {A} e.

(** ** The environment: storage client and clock

    [CloudObjectStorage] is imported from the [cos] module; its methods are
    taken as parameters.  Each call may change the outside world [W] and
    either succeeds or fails with a [COSError]. *)

Definition timestamp : Type := Z.

Class Environment (W file_info : Type) : Type := {
  get_file : string -> json -> W -> (COSError + unit) * W;
  put_file : string -> json -> W -> (COSError + unit) * W;
  delete_file : string -> json -> W -> (COSError + unit) * W;
  get_files_info : string -> W -> (COSError + list (string * file_info)) * W;
  datetime_now : W -> timestamp * W;
}.

(** The calls issued to the storage client, in order (instrumentation: the
    source keeps no such log). *)
Inductive cos_call : Type :=
| CallGetFile (bucket_name : string) (file : json)
| CallPutFile (bucket_name : string) (file : json)
| CallDeleteFile (bucket_name : string) (file : json)
| CallGetFilesInfo (bucket_name : string).

(** ** Server state *)

Record TransferEvent : Type := mkTransferEvent {
  te_key : json;
  te_timestamp : timestamp;
  te_source_bucket : string;
  te_destination_bucket : string;
  te_status : string;
}.

Record HistoryEvent : Type := mkHistoryEvent {
  he_id : string;
  he_timestamp : timestamp;
  he_objects : list TransferEvent;
}.

Record State (W : Type) : Type := mkState {
  event_stats : gmap string Z;
  event_history : list HistoryEvent;
  buckets : list string;
  world : W;
  calls : list cos_call;
}.
Arguments mkState {W}.
Arguments event_stats {W}.
Arguments event_history {W}.
Arguments buckets {W}.
Arguments world {W}.
Arguments calls {W}.

(** ** The monad of request handlers

    A handler is a state transformer that either returns a value or raises;
    what it did to the state before raising stays done, as in Python. *)

Definition M (W A : Type) : Type := State W -> result A * State W.

Definition ret {W A} (a : A) : M W A := fun s => (Return a, s).

Definition bind {W A B} (m : M W A) (k : A -> M W B) : M W B :=
  fun s =>
    match m s with
    | (Return a, s') => k a s'
    | (Raise e, s') => (Raise e, s')
    end.

Definition raise {W A} (e : exn) : M W A := fun s => (Raise e, s).

(** [try: m  except COSError as e: h e] *)
Definition try_except_COSError {W A} (m : M W A) (h : COSError -> M W A) : M W A :=
  fun s =>
    match m s with
    | (Raise (ExCOS e), s') => h e s'
    | r => r
    end.

Declare Scope py_scope.
Delimit Scope py_scope with py.
Notation "x <- m ;; k" := (bind m (fun x => k))
  (at level 100, m at next level, right associativity) : py_scope.
Notation "m ;;; k" := (bind m (fun _ => k))
  (at level 100, right associativity) : py_scope.
Open Scope py_scope.

(** [flask.abort(code)] *)
Definition abort {W A} (code : Z) : M W A := raise (ExHTTP code).

(** [request.get_json(silent=True)]: a body that does not parse gives
    [None], which is also what the JSON text [null] parses to. *)
Definition get_json_silent (body : option json) : json :=
  match body with
  | Some v => v
  | None => JNull
  end.

(** [v[k]] for a [str] key [k]. *)
Definition getitem {W} (v : json) (k : string) : M W json :=
  match v with
  | JObj items =>
      match dict_get items k with
      | Some x => ret x
      | None => raise (ExKeyError k)
      end
  | _ => raise ExTypeError
  end.

(** [str(n)] for an [int]. *)
Definition str (n : Z) : string := pretty n.

(** [x in l] for a list of [str]. *)
Definition str_in (x : string) (l : list string) : bool :=
  existsb (String.eqb x) l.

Section Primitives.
Context {W file_info : Type} `{Env : Environment W file_info}.

(** [event_stats[k]] *)
Definition stats_getitem (k : string) : M W Z :=
  fun s =>
    match event_stats s !! k with
    | Some n => (Return n, s)
    | None => (Raise (ExKeyError k), s)
    end.

(** [event_stats[k] = v] *)
Definition stats_setitem (k : string) (v : Z) : M W unit :=
  fun s =>
    (Return tt,
     mkState (<[k := v]> (event_stats s)) (event_history s) (buckets s)
             (world s) (calls s)).

(** [event_history.append(h)] *)
Definition history_append (h : HistoryEvent) : M W unit :=
  fun s =>
    (Return tt,
     mkState (event_stats s) (event_history s ++ [h]) (buckets s)
             (world s) (calls s)).

Definition get_buckets : M W (list string) :=
  fun s => (Return (buckets s), s).

Definition get_history : M W (list HistoryEvent) :=
  fun s => (Return (event_history s), s).

Definition get_stats : M W (gmap string Z) :=
  fun s => (Return (event_stats s), s).

(** [buckets.append(b)] *)
Definition buckets_append (b : string) : M W unit :=
  fun s =>
    (Return tt,
     mkState (event_stats s) (event_history s) (buckets s ++ [b])
             (world s) (calls s)).

(** [datetime.now()] *)
Definition now : M W timestamp :=
  fun s =>
    let '(t, w) := datetime_now (world s) in
    (Return t,
     mkState (event_stats s) (event_history s) (buckets s) w (calls s)).

(** A method call on [cos_client]: logged, then answered by the
    environment; a failure is raised as [COSError]. *)
Definition cos_call_m {A} (c : cos_call) (op : W -> (COSError + A) * W) : M W A :=
  fun s =>
    let '(r, w) := op (world s) in
    let s' := mkState (event_stats s) (event_history s) (buckets s) w
                      (calls s ++ [c]) in
    match r with
    | inl e => (Raise (ExCOS e), s')
    | inr a => (Return a, s')
    end.

Definition cos_get_file (bucket_name : string) (file : json) : M W unit :=
  cos_call_m (CallGetFile bucket_name file) (get_file bucket_name file).
Definition cos_put_file (bucket_name : string) (file : json) : M W unit :=
  cos_call_m (CallPutFile bucket_name file) (put_file bucket_name file).
Definition cos_delete_file (bucket_name : string) (file : json) : M W unit :=
  cos_call_m (CallDeleteFile bucket_name file) (delete_file bucket_name file).
Definition cos_get_files_info (bucket_name : string)
  : M W (list (string * file_info)) :=
  cos_call_m (CallGetFilesInfo bucket_name) (get_files_info bucket_name).

(** ** [class FileHandler] *)

Record FileHandler : Type := mkFileHandler {
  fh_source_bucket : string;
  fh_destination_bucket : string;
  fh_file : json;
}.

(** [FileHandler.do]: download, (no processing), upload, delete.  Only the
    delete sits in a [try]; its handler logs a warning and raises the
    error again. *)
Definition FileHandler_do (self : FileHandler) : M W unit :=
  _object <- cos_get_file (fh_source_bucket self) (fh_file self) ;;
  cos_put_file (fh_destination_bucket self) (fh_file self) ;;;
  try_except_COSError
    (cos_delete_file (fh_source_bucket self) (fh_file self))
    (fun e => raise (ExCOS e)).
End Primitives.

(** ** [create_server] *)

(** Order of [str], for [sorted]. *)
Definition str_le (a b : string) : Prop := String.leb a b = true.

#[local] Instance str_le_dec : RelDecision str_le.
Proof. intros a b. unfold str_le. apply _. Defined.

(** What a view function hands back to Flask. *)
Inductive response (file_info : Type) : Type :=
| Text (body : string)
| Stats (stats : gmap string Z)
| HistoryPage (events : list HistoryEvent)
| FilesPage (file_names : list string)
            (files : gmap string (gmap string file_info))
            (buckets : list string).
Arguments Text {file_info} body.
Arguments Stats {file_info} stats.
Arguments HistoryPage {file_info} events.
Arguments FilesPage {file_info} file_names files buckets.

Inductive request : Type :=
| GET_files
| GET_events_stats
| GET_events_history
| POST_events_cos (body : option json)
| POST_events_cron (body : option json).

Section Server.
Context {W file_info : Type} `{Env : Environment W file_info}.
Variables (source_bucket destination_bucket : string).

(** The closure variables right after [create_server] has set them. *)
Definition create_server (w : W) : State W :=
  mkState (<["cron" := 0]> (<["cron_error" := 0]> (<["cos" := 0]>
             (<["cos_error" := 0]> ∅))))
          []
          [source_bucket; destination_bucket]
          w
          [].

(** *** [GET /files] *)

Definition record_file (b : string)
    (file_inventory : gmap string (gmap string file_info))
    (item : string * file_info) : gmap string (gmap string file_info) :=
  let '(f, f_info) := item in
  let row := match file_inventory !! f with Some r => r | None => ∅ end in
  <[f := <[b := f_info]> row]> file_inventory.

Fixpoint inventory (bs : list string)
    (file_inventory : gmap string (gmap string file_info))
  : M W (gmap string (gmap string file_info)) :=
  match bs with
  | [] => ret file_inventory
  | b :: rest =>
      bucket_files <- cos_get_files_info b ;;
      inventory rest (fold_left (record_file b) bucket_files file_inventory)
  end.

Definition get_files : M W (response file_info) :=
  bs <- get_buckets ;;
  file_inventory <- inventory bs ∅ ;;
  ret (FilesPage (merge_sort str_le (map fst (map_to_list file_inventory)))
                 file_inventory bs).

(** *** [GET /events/stats] and [GET /events/history] *)

Definition get_event_stats : M W (response file_info) :=
  stats <- get_stats ;; ret (Stats stats).

Definition get_event_history : M W (response file_info) :=
  events <- get_history ;; ret (HistoryPage events).

(** *** [POST /events/cos] *)

Definition handle_cos_event (body : option json) : M W (response file_info) :=
  event_timestamp <- now ;;
  let event := get_json_silent body in
  if truthy event then
    bucket <- getitem event "bucket" ;;
    (if py_ne_str bucket source_bucket then
       n <- stats_getitem "cos_error" ;;
       stats_setitem "cos_error" (n + 1) ;;;
       abort 400
     else ret tt) ;;;
    n <- stats_getitem "cos" ;;
    stats_setitem "cos" (n + 1) ;;;
    source_object <- getitem event "key" ;;
    let handler :=
      mkFileHandler source_bucket destination_bucket source_object in
    event_status <-
      try_except_COSError
        (FileHandler_do handler ;;; ret "OK")
        (fun _ => ret "Deletion Error") ;;
    n <- stats_getitem "cos" ;;
    t <- now ;;
    let history_event :=
      mkHistoryEvent ("cos-" ++ str n) event_timestamp
        [mkTransferEvent source_object t source_bucket destination_bucket
                         event_status] in
    history_append history_event ;;;
    bs <- get_buckets ;;
    (if negb (str_in source_bucket bs)
     then buckets_append source_bucket
     else ret tt) ;;;
    ret (Text "OK")
  else
    n <- stats_getitem "cos_error" ;;
    stats_setitem "cos_error" (n + 1) ;;;
    abort 400.

(** *** [POST /events/cron] *)

(** One turn of the loop over [source_inventory.keys()]: migrate [file]
    and give the entry that is appended to [history_event['objects']]. *)
Definition reconcile_one (file : string) : M W TransferEvent :=
  let handler :=
    mkFileHandler source_bucket destination_bucket (JStr file) in
  object_status <-
    try_except_COSError
      (FileHandler_do handler ;;; ret "OK")
      (fun _ => ret "Deletion Error") ;;
  t <- now ;;
  ret (mkTransferEvent (JStr file) t source_bucket destination_bucket
                       object_status).

(** The loop; [objects] is [history_event['objects']] so far. *)
Fixpoint reconcile (files : list string) (objects : list TransferEvent)
  : M W (list TransferEvent) :=
  match files with
  | [] => ret objects
  | file :: rest =>
      o <- reconcile_one file ;;
      reconcile rest (objects ++ [o])
  end.

Definition handle_cron_event (body : option json) : M W (response file_info) :=
  let event := get_json_silent body in
  if truthy event then
    n <- stats_getitem "cron" ;;
    stats_setitem "cron" (n + 1) ;;;
    event_timestamp <- now ;;
    n <- stats_getitem "cron" ;;
    let id := ("cron-" ++ str n)%string in
    source_inventory <- cos_get_files_info source_bucket ;;
    objects <- reconcile (map fst source_inventory) [] ;;
    history_append (mkHistoryEvent id event_timestamp objects) ;;;
    ret (Text "OK")
  else
    n <- stats_getitem "cron_error" ;;
    stats_setitem "cron_error" (n + 1) ;;;
    abort 400.

(** *** Routing, and the life of the process *)

Definition dispatch (r : request) : M W (response file_info) :=
  match r with
  | GET_files => get_files
  | GET_events_stats => get_event_stats
  | GET_events_history => get_event_history
  | POST_events_cos body => handle_cos_event body
  | POST_events_cron body => handle_cron_event body
  end.

(** The state a request leaves behind, whatever it answered. *)
Definition serve (s : State W) (r : request) : State W := snd (dispatch r s).

(** The state after the requests [rs], served one after the other. *)
Definition serve_all (rs : list request) (s : State W) : State W :=
  fold_left serve rs s.
End Server.

(** ** [start_server]

    The command line entry point.  [click] hands over each option as given
    on the command line, or [None] (the three options with a default always
    have a value); [environ] is the process environment. *)

(** [logging.DEBUG] ... [logging.CRITICAL] *)
Inductive logging_level : Type := DEBUG | INFO | WARNING | ERROR | CRITICAL.

(** The dict [log_levels]. *)
Definition log_levels : gmap string logging_level :=
  <["critical" := CRITICAL]> (<["error" := ERROR]> (<["warning" := WARNING]>
    (<["info" := INFO]> (<["debug" := DEBUG]> ∅)))).

Record cli_options : Type := mkOptions {
  opt_destination_bucket : option string;
  opt_source_bucket : option string;
  opt_cos_instance_id : option string;
  opt_cos_endpoint : option string;
  opt_iam_endpoint : option string;
  opt_api_key : option string;
  opt_port : Z;
  opt_host : string;
  opt_log_level : string;
}.

(** Truth value of a [str] or [None]. *)
Definition str_truthy (v : option string) : bool :=
  match v with
  | Some s => negb (String.eqb s EmptyString)
  | None => false
  end.

(** [v if v else environ.get(name)] *)
Definition or_environ (v : option string) (environ : gmap string string)
    (name : string) : option string :=
  if str_truthy v then v else environ !! name.

(** The keyword arguments of [CloudObjectStorage(...)]. *)
Record cos_settings : Type := mkSettings {
  set_api_key : string;
  set_instance_id : string;
  set_iam_endpoint : string;
  set_cos_endpoint : string;
}.

(** How [start_server] ends: with an uncaught exception; with
    [logging.error(message)] and [return -1]; or in [server.run(port=port)]
    on the application [create_server] built for the client and the two
    bucket names. *)
Inductive startup : Type :=
| Crashed (e : exn)
| Refused (level : logging_level) (message : string)
| Serving (level : logging_level) (client : cos_settings)
          (destination_bucket source_bucket : string) (port : Z).

Definition start_server (o : cli_options) (environ : gmap string string)
  : startup :=
  match log_levels !! opt_log_level o with
  | None => Crashed (ExKeyError (opt_log_level o))
  | Some level =>
  match or_environ (opt_cos_endpoint o) environ "COS_ENDPOINT" with
  | None | Some EmptyString => Refused level "No valid COS endpoint specified"
  | Some cos_endpoint =>
  match or_environ (opt_api_key o) environ "APIKEY" with
  | None | Some EmptyString => Refused level "No IAM API key found"
  | Some api_key =>
  match or_environ (opt_destination_bucket o) environ "DESTINATION_BUCKET" with
  | None | Some EmptyString => Refused level "Must specify a destination bucket"
  | Some destination_bucket =>
  match or_environ (opt_source_bucket o) environ "SOURCE_BUCKET" with
  | None | Some EmptyString => Refused level "Must specify a source bucket"
  | Some source_bucket =>
  match or_environ (opt_cos_instance_id o) environ "COS_INSTANCE_ID" with
  | None | Some EmptyString => Refused level "No COS instance ID found"
  | Some cos_instance_id =>
  match or_environ (opt_iam_endpoint o) environ "IAM_ENDPOINT" with
  | None | Some EmptyString => Refused level "No IAM endpoint specified"
  | Some iam_endpoint =>
      Serving level
        (mkSettings api_key cos_instance_id iam_endpoint cos_endpoint)
        destination_bucket source_bucket (opt_port o)
  end end end end end end end.

(** ** An in-memory storage service

    A stand-in for the [cos] client, used to run the handlers on concrete
    requests: objects are (bucket, key) pairs, [get_file] needs the object to
    exist, [put_file] needs the file to have been downloaded and is refused
    for the buckets in [mem_sealed], [delete_file] is refused for the keys
    in [mem_locked], and the clock ticks at every reading. *)

Module MemCOS.
Record mem : Type := mkMem {
  mem_objects : list (string * string);
  mem_downloaded : list string;
  mem_locked : list string;
  mem_sealed : list string;
  mem_clock : Z;
}.

Definition has_object (b k : string) (m : mem) : bool :=
  existsb (fun o => String.eqb (fst o) b && String.eqb (snd o) k)
          (mem_objects m).

Definition mem_get_file (b : string) (f : json) (m : mem)
  : (COSError + unit) * mem :=
  match f with
  | JStr k =>
      if has_object b k m
      then (inr tt,
            mkMem (mem_objects m) (mem_downloaded m ++ [k]) (mem_locked m)
                  (mem_sealed m) (mem_clock m))
      else (inl (mkCOSError "NoSuchKey"), m)
  | _ => (inl (mkCOSError "InvalidKey"), m)
  end.

Definition mem_put_file (b : string) (f : json) (m : mem)
  : (COSError + unit) * mem :=
  match f with
  | JStr k =>
      if str_in k (mem_downloaded m) && negb (str_in b (mem_sealed m))
      then (inr tt,
            mkMem (if has_object b k m then mem_objects m
                   else mem_objects m ++ [(b, k)])
                  (mem_downloaded m) (mem_locked m) (mem_sealed m) (mem_clock m))
      else (inl (mkCOSError "NoSuchFile"), m)
  | _ => (inl (mkCOSError "InvalidKey"), m)
  end.

Definition mem_delete_file (b : string) (f : json) (m : mem)
  : (COSError + unit) * mem :=
  match f with
  | JStr k =>
      if str_in k (mem_locked m)
      then (inl (mkCOSError "AccessDenied"), m)
      else (inr tt,
            mkMem (List.filter (fun o => negb (String.eqb (fst o) b
                                          && String.eqb (snd o) k))
                          (mem_objects m))
                  (mem_downloaded m) (mem_locked m) (mem_sealed m) (mem_clock m))
  | _ => (inl (mkCOSError "InvalidKey"), m)
  end.

Definition mem_get_files_info (b : string) (m : mem)
  : (COSError + list (string * unit)) * mem :=
  (inr (map (fun o => (snd o, tt))
            (List.filter (fun o => String.eqb (fst o) b) (mem_objects m))),
   m).

Definition mem_datetime_now (m : mem) : timestamp * mem :=
  (mem_clock m,
   mkMem (mem_objects m) (mem_downloaded m) (mem_locked m) (mem_sealed m)
         (mem_clock m + 1)).

#[global] Instance mem_env : Environment mem unit := {
  get_file := mem_get_file;
  put_file := mem_put_file;
  delete_file := mem_delete_file;
  get_files_info := mem_get_files_info;
  datetime_now := mem_datetime_now;
}.

(** Source bucket ["in"] with three objects, of which ["b"] cannot be
    deleted; destination bucket ["out"], empty. *)
Definition demo : mem :=
  mkMem [("in", "a"); ("in", "b"); ("in", "c")] [] ["b"] [] 1000.

Definition boot : State mem := create_server "in" "out" demo.

(** The same, with a destination bucket that takes no uploads. *)
Definition demo_sealed : mem :=
  mkMem [("in", "a"); ("in", "b"); ("in", "c")] [] ["b"] ["out"] 1000.

Definition boot_sealed : State mem := create_server "in" "out" demo_sealed.
End MemCOS.

Definition notification (bucket key : string) : option json :=
  Some (JObj [("bucket", JStr bucket); ("key", JStr key)]).

(** * Notions used in the statements *)

(** The four entries of [event_stats]. *)
Definition counter_keys : list string := ["cron"; "cron_error"; "cos"; "cos_error"].

Definition counters_present (stats : gmap string Z) : Prop :=
  Forall (fun k => is_Some (stats !! k)) counter_keys.

(** [new] is [old] with entry [k] one higher and every other entry as it
    was. *)
Definition increments (k : string) (old new : gmap string Z) : Prop :=
  exists n, old !! k = Some n /\ new = <[k := n + 1]> old.

(** A handler run that left [event_stats], [event_history] and [buckets]
    alone and issued the client calls [cs]. *)
Definition only_calls {W} (cs : list cos_call) (s s' : State W) : Prop :=
  event_stats s' = event_stats s /\
  event_history s' = event_history s /\
  buckets s' = buckets s /\
  calls s' = calls s ++ cs.

(** The calls of one full run of [FileHandler.do]. *)
Definition pipeline_calls (self : FileHandler) : list cos_call :=
  [CallGetFile (fh_source_bucket self) (fh_file self);
   CallPutFile (fh_destination_bucket self) (fh_file self);
   CallDeleteFile (fh_source_bucket self) (fh_file self)].

(** The files whose download was attempted, in order. *)
Definition downloads (cs : list cos_call) : list json :=
  omap (fun c => match c with CallGetFile _ f => Some f | _ => None end) cs.

(** A history entry made by this server for its configured buckets. *)
Definition transfer_between (source_bucket destination_bucket : string)
    (o : TransferEvent) : Prop :=
  te_source_bucket o = source_bucket /\
  te_destination_bucket o = destination_bucket.

(** The notification payloads on which [handle_cos_event] reaches one of its
    counter updates: those that fail [if event:], and the objects that have
    a ['bucket'] entry. *)
Definition screened (body : option json) : bool :=
  let event := get_json_silent body in
  if truthy event then
    match event with
    | JObj items =>
        match dict_get items "bucket" with Some _ => true | None => false end
    | _ => false
    end
  else true.

(** A handler run that left the counters, the history and the bucket list
    as they were. *)
Definition same_ledger {W} (s s' : State W) : Prop :=
  event_stats s' = event_stats s /\
  event_history s' = event_history s /\
  buckets s' = buckets s.

(** [event_stats[k]] as a number, for sums. *)
Definition counter {W} (k : string) (s : State W) : Z :=
  match event_stats s !! k with Some n => n | None => 0 end.

Definition is_notification (r : request) : bool :=
  match r with POST_events_cos _ => true | _ => false end.

Definition is_reconciliation (r : request) : bool :=
  match r with POST_events_cron _ => true | _ => false end.

(** Number of [POST /events/cos] requests among [rs]. *)
Definition notifications_received (rs : list request) : nat :=
  length (List.filter is_notification rs).

(** The requests whose payload [handle_cos_event] screens; every request
    to another route qualifies. *)
Definition screened_request (r : request) : bool :=
  match r with POST_events_cos body => screened body | _ => true end.

(** The status Flask answers with: 200 for a returned body, the code of an
    [abort], 500 for any other exception that leaves the view function. *)
Definition status_code {A} (r : result A) : Z :=
  match r with
  | Return _ => 200
  | Raise (ExHTTP code) => code
  | Raise _ => 500
  end.

Section Notions.
Context {W file_info : Type} `{Env : Environment W file_info}.
Variables (source_bucket destination_bucket : string).

(** The calls of a sweep over [files]: for each file in turn, the calls
    of its migration up to the step that failed, if one did. *)
Definition sweep_calls (files : list string) (cs : list cos_call) : Prop :=
  exists segments,
    cs = concat segments /\
    Forall2
      (fun file segment =>
         exists k,
           segment =
             take (S k)
               (pipeline_calls
                  (mkFileHandler source_bucket destination_bucket
                                 (JStr file))))
      files segments.

(** The state in which the notification handler starts the migration:
    clock read once, [cos] counted. *)
Definition cos_started (s : State W) (n : Z) : State W :=
  mkState (<["cos" := n + 1]> (event_stats s)) (event_history s) (buckets s)
          (snd (datetime_now (world s))) (calls s).

(** The state in which the sweep starts its loop: [cron] counted, clock
    read, source bucket listed. *)
Definition cron_listed (s : State W) (n : Z) : State W :=
  mkState (<["cron" := n + 1]> (event_stats s)) (event_history s) (buckets s)
          (snd (get_files_info source_bucket (snd (datetime_now (world s)))))
          (calls s ++ [CallGetFilesInfo source_bucket]).

(** What holds of the closure variables for as long as the process
    lives. *)
Definition ledger_ok (s : State W) : Prop :=
  counters_present (event_stats s) /\
  buckets s = [source_bucket; destination_bucket] /\
  Forall (fun h => Forall (transfer_between source_bucket destination_bucket)
                          (he_objects h))
         (event_history s).

(** [cos] plus [cos_error]. *)
Definition notification_total (s : State W) : Z :=
  counter "cos" s + counter "cos_error" s.

End Notions.

(** A payload that is an object without a ['bucket'] entry. *)
Definition stray_payload : option json := Some (JObj [("a", JInt 1)]).

(** A day in the life: an accepted notification, a foreign one, a body
    that does not parse, a sweep, and two reads. *)
Definition demo_requests : list request :=
  [POST_events_cos (notification "in" "a");
   POST_events_cos (notification "elsewhere" "a");
   GET_events_stats;
   POST_events_cos None;
   POST_events_cron (Some (JObj [("tick", JInt 1)]));
   GET_files].

(** ** Further notions *)

(** An unreachable storage service: every call fails, the clock ticks. *)
Module DownCOS.
Record down : Type := mkDown { down_clock : Z }.

#[global] Instance down_env : Environment down unit := {
  get_file := fun _ _ d => (inl (mkCOSError "Unreachable"), d);
  put_file := fun _ _ d => (inl (mkCOSError "Unreachable"), d);
  delete_file := fun _ _ d => (inl (mkCOSError "Unreachable"), d);
  get_files_info := fun _ d => (inl (mkCOSError "Unreachable"), d);
  datetime_now := fun d => (down_clock d, mkDown (down_clock d + 1));
}.

Definition boot : State down := create_server "in" "out" (mkDown 1000).
End DownCOS.

(** The counter a request raises, if it gets that far, read off the two
    handlers. *)
Definition counter_raised (source_bucket : string) (r : request)
  : option string :=
  match r with
  | POST_events_cos body =>
      let event := get_json_silent body in
      if truthy event then
        match event with
        | JObj items =>
            match dict_get items "bucket" with
            | Some bucket =>
                if py_ne_str bucket source_bucket then Some "cos_error"
                else Some "cos"
            | None => None
            end
        | _ => None
        end
      else Some "cos_error"
  | POST_events_cron body =>
      if truthy (get_json_silent body) then Some "cron" else Some "cron_error"
  | _ => None
  end.

Definition raises_counter (source_bucket k : string) (r : request) : bool :=
  match counter_raised source_bucket r with
  | Some k' => String.eqb k' k
  | None => false
  end.

(** The identifiers of history records. *)
Definition cos_id (n : Z) : string := "cos-" ++ str n.
Definition cron_id (n : Z) : string := "cron-" ++ str n.




(** The dict with the given items; of two items with one key the later
    stays. *)
Definition dict_of {A} (items : list (string * A)) : gmap string A :=
  list_to_map (reverse items).

(** [files[f][b]], or [None] where either key is missing. *)
Definition inventory_entry {A} (files : gmap string (gmap string A))
    (f b : string) : option A :=
  match files !! f with
  | Some row => row !! b
  | None => None
  end.

(** The settings [start_server] requires, in the order it checks them:
    the option, the environment variable, the error message. *)
Definition required_settings
  : list ((cli_options -> option string) * string * string) :=
  [(opt_cos_endpoint, "COS_ENDPOINT", "No valid COS endpoint specified");
   (opt_api_key, "APIKEY", "No IAM API key found");
   (opt_destination_bucket, "DESTINATION_BUCKET",
    "Must specify a destination bucket");
   (opt_source_bucket, "SOURCE_BUCKET", "Must specify a source bucket");
   (opt_cos_instance_id, "COS_INSTANCE_ID", "No COS instance ID found");
   (opt_iam_endpoint, "IAM_ENDPOINT", "No IAM endpoint specified")].

(** [value] is what [start_server] settles on for an option: the option
    if it is given and not empty, else the environment variable; and it
    is not empty. *)
Definition settled (v : option string) (environ : gmap string string)
    (name value : string) : Prop :=
  value <> EmptyString /\
  (v = Some value \/ (str_truthy v = false /\ environ !! name = Some value)).

(** A command line that leaves the buckets and the key to the
    environment, and an environment that has them. *)
Definition demo_options : cli_options :=
  mkOptions None (Some EmptyString) (Some "instance-1")
            (Some "https://cos.example") (Some "https://iam.example") None
            8080 "0.0.0.0" "info".

Definition demo_environ : gmap string string :=
  <["APIKEY" := "secret"]> (<["SOURCE_BUCKET" := "in"]>
    (<["DESTINATION_BUCKET" := "out"]> (<["COS_ENDPOINT" := "ignored"]> ∅))).

(** * Properties of the handlers *)

Lemma only_calls_refl {W} (s : State W) : only_calls [] s s.
Proof. unfold only_calls. rewrite app_nil_r. auto. Qed.

Lemma only_calls_trans {W} (cs1 cs2 : list cos_call) (s1 s2 s3 : State W) :
  only_calls cs1 s1 s2 -> only_calls cs2 s2 s3 -> only_calls (cs1 ++ cs2) s1 s3.
Proof.
  intros (E1 & H1 & B1 & C1) (E2 & H2 & B2 & C2).
  unfold only_calls. rewrite E2, H2, B2, C2, C1, app_assoc. auto.
Qed.

Lemma only_calls_world {W} (cs : list cos_call) (s s' : State W) (w : W) :
  only_calls cs s s' ->
  only_calls cs s
    (mkState (event_stats s') (event_history s') (buckets s') w (calls s')).
Proof. intros H. exact H. Qed.

Lemma increments_lookup (k : string) (old new : gmap string Z) :
  increments k old new ->
  (exists n, old !! k = Some n /\ new !! k = Some (n + 1)) /\
  (forall k', k' <> k -> new !! k' = old !! k').
Proof.
  intros (n & Hk & ->). split.
  - exists n. split; [done | apply lookup_insert_eq].
  - intros k' Hne. apply lookup_insert_ne. congruence.
Qed.

Lemma increments_present (k : string) (old new : gmap string Z) :
  increments k old new -> counters_present old -> counters_present new.
Proof.
  intros (n & Hk & ->) Hp. unfold counters_present in *.
  eapply Forall_impl; [exact Hp |]. intros k' [v Hv]. cbv beta in *.
  destruct (decide (k = k')) as [-> | Hne].
  - rewrite lookup_insert_eq. eauto.
  - rewrite lookup_insert_ne by done. eauto.
Qed.

Lemma dict_get_truthy (items : list (string * json)) (k : string) (v : json) :
  dict_get items k = Some v -> truthy (JObj items) = true.
Proof. destruct items; [discriminate | reflexivity]. Qed.

Lemma py_ne_str_same (s : string) : py_ne_str (JStr s) s = false.
Proof. unfold py_ne_str. rewrite String.eqb_refl. reflexivity. Qed.

Lemma str_in_head (x : string) (l : list string) : str_in x (x :: l) = true.
Proof. unfold str_in. cbn [existsb]. rewrite String.eqb_refl. reflexivity. Qed.

Lemma downloads_app (cs1 cs2 : list cos_call) :
  downloads (cs1 ++ cs2) = downloads cs1 ++ downloads cs2.
Proof. apply omap_app. Qed.

Lemma downloads_pipeline (self : FileHandler) (n : nat) :
  downloads (take (S n) (pipeline_calls self)) = [fh_file self].
Proof. destruct n as [| [| [| n]]]; reflexivity. Qed.

Lemma only_calls_same_ledger {W} (cs : list cos_call) (s s' : State W) :
  only_calls cs s s' -> same_ledger s s'.
Proof. intros (E & H & B & _). repeat split; assumption. Qed.

Lemma py_ne_str_false (v : json) (s : string) :
  py_ne_str v s = false -> v = JStr s.
Proof.
  destruct v; cbn; try discriminate.
  destruct (String.eqb_spec s0 s); [congruence | discriminate].
Qed.

Lemma counters_present_lookup (stats : gmap string Z) (k : string) :
  counters_present stats -> In k counter_keys -> exists n, stats !! k = Some n.
Proof.
  intros Hp Hin. unfold counters_present in Hp.
  rewrite Forall_forall in Hp. apply Hp. apply list_elem_of_In. exact Hin.
Qed.

Lemma increments_counter (k k' : string) (W : Type) (s s' : State W) :
  increments k (event_stats s) (event_stats s') ->
  counter k' s' = counter k' s + (if String.eqb k' k then 1 else 0).
Proof.
  intros Hi. apply increments_lookup in Hi as [(n & Ho & Hn) Hother].
  unfold counter. destruct (String.eqb_spec k' k) as [-> | Hne].
  - rewrite Ho, Hn. reflexivity.
  - rewrite (Hother k' Hne). lia.
Qed.

Lemma same_ledger_counter (k : string) (W : Type) (s s' : State W) :
  same_ledger s s' -> counter k s' = counter k s.
Proof. intros (E & _). unfold counter. rewrite E. reflexivity. Qed.

Lemma increments_irrefl (k : string) (stats : gmap string Z) :
  ~ increments k stats stats.
Proof.
  intros (n & Hk & Heq).
  assert (H : stats !! k = Some (n + 1))
    by (rewrite Heq at 1; apply lookup_insert_eq).
  rewrite Hk in H. injection H. lia.
Qed.

Section Facts.
Context {W file_info : Type} `{Env : Environment W file_info}.
Variables (source_bucket destination_bucket : string).

(** *** The clock and the client touch nothing of the server's own *)

Lemma now_run (s : State W) :
  now s =
    (Return (fst (datetime_now (world s))),
     mkState (event_stats s) (event_history s) (buckets s)
             (snd (datetime_now (world s))) (calls s)).
Proof. unfold now. destruct (datetime_now (world s)). reflexivity. Qed.

Lemma cos_call_run {A} (c : cos_call) (op : W -> (COSError + A) * W)
      (s : State W) :
  cos_call_m c op s =
    (match fst (op (world s)) with
     | inl e => Raise (ExCOS e)
     | inr a => Return a
     end,
     mkState (event_stats s) (event_history s) (buckets s)
             (snd (op (world s))) (calls s ++ [c])).
Proof.
  unfold cos_call_m. destruct (op (world s)) as [[e | a] w]; reflexivity.
Qed.

(** [FileHandler.do] either returns, having issued the three calls, or
    raises the [COSError] of the call that failed, having issued the calls
    up to that one. *)
Lemma FileHandler_do_cases (self : FileHandler) (s : State W) :
  exists r s' cs,
    FileHandler_do self s = (r, s') /\
    only_calls cs s s' /\
    (r = Return tt \/ exists e, r = Raise (ExCOS e)) /\
    exists n, cs = take (S n) (pipeline_calls self).
Proof.
  unfold FileHandler_do, bind, try_except_COSError, raise,
    cos_get_file, cos_put_file, cos_delete_file.
  rewrite cos_call_run.
  destruct (fst (get_file _ _ (world s))) as [e1 | []] eqn:G.
  { do 3 eexists. split; [reflexivity |]. unfold only_calls; cbn.
    repeat split; eauto. exists 0%nat. reflexivity. }
  rewrite cos_call_run; cbn [world calls event_stats event_history buckets].
  destruct (fst (put_file _ _ _)) as [e2 | []] eqn:P.
  { do 3 eexists. split; [reflexivity |]. unfold only_calls; cbn.
    rewrite <- app_assoc. repeat split; eauto. exists 1%nat. reflexivity. }
  rewrite cos_call_run; cbn [world calls event_stats event_history buckets].
  destruct (fst (delete_file _ _ _)) as [e3 | []] eqn:D.
  { do 3 eexists. split; [reflexivity |]. unfold only_calls; cbn.
    rewrite <- !app_assoc. repeat split; eauto. exists 2%nat. reflexivity. }
  do 3 eexists. split; [reflexivity |]. unfold only_calls; cbn.
  rewrite <- !app_assoc. repeat split; eauto. exists 2%nat. reflexivity.
Qed.

Lemma stats_getitem_run (k : string) (n : Z) (s : State W) :
  event_stats s !! k = Some n -> stats_getitem k s = (Return n, s).
Proof. intros H. unfold stats_getitem. rewrite H. reflexivity. Qed.

(** The guarded migration both handlers run:
    [try: handler.do()  except COSError: status = 'Deletion Error']. *)
Lemma guarded_do_total (self : FileHandler) (s : State W) :
  exists status s' cs,
    try_except_COSError (FileHandler_do self ;;; ret "OK")
                        (fun _ => ret "Deletion Error") s
      = (Return status, s') /\
    only_calls cs s s' /\
    (status = "OK" \/ status = "Deletion Error") /\
    exists n, cs = take (S n) (pipeline_calls self).
Proof.
  destruct (FileHandler_do_cases self s)
    as (r & s' & cs & Hrun & Hframe & Hr & Hcs).
  unfold try_except_COSError, bind, ret. rewrite Hrun.
  destruct Hr as [-> | [e ->]]; eauto 10.
Qed.

Lemma reconcile_one_total (file : string) (s : State W) :
  exists o s' cs,
    reconcile_one source_bucket destination_bucket file s = (Return o, s') /\
    only_calls cs s s' /\
    te_key o = JStr file /\
    te_source_bucket o = source_bucket /\
    te_destination_bucket o = destination_bucket /\
    (te_status o = "OK" \/ te_status o = "Deletion Error") /\
    exists k,
      cs = take (S k)
             (pipeline_calls
                (mkFileHandler source_bucket destination_bucket (JStr file))).
Proof.
  unfold reconcile_one.
  destruct (guarded_do_total
              (mkFileHandler source_bucket destination_bucket (JStr file)) s)
    as (status & s1 & cs & Hrun & Hframe & Hst & Hcs).
  unfold bind at 1. rewrite Hrun.
  unfold bind. rewrite now_run. unfold ret.
  do 3 eexists. split; [reflexivity |].
  split; [apply only_calls_world; exact Hframe |].
  cbn [te_key te_source_bucket te_destination_bucket te_status].
  auto 10.
Qed.

Lemma sweep_calls_downloads (files : list string) (cs : list cos_call) :
  sweep_calls source_bucket destination_bucket files cs -> downloads cs = map JStr files.
Proof.
  intros (segments & -> & HF).
  induction HF as [| file segment files segments [k ->] _ IH].
  - reflexivity.
  - cbn [concat map]. rewrite downloads_app, downloads_pipeline, IH.
    reflexivity.
Qed.

Lemma sweep_calls_cons (file : string) (files : list string) (k : nat)
      (cs : list cos_call) :
  sweep_calls source_bucket destination_bucket files cs ->
  sweep_calls source_bucket destination_bucket (file :: files)
    (take (S k)
       (pipeline_calls
          (mkFileHandler source_bucket destination_bucket (JStr file)))
     ++ cs).
Proof.
  intros (segments & -> & HF).
  eexists (_ :: segments). split; [reflexivity |].
  constructor; eauto.
Qed.

(** The loop of the sweep never raises, touches neither the counters nor
    the history, and adds one entry per file, in order. *)
Lemma reconcile_total (files : list string) :
  forall (objects : list TransferEvent) (s : State W),
  exists new s' cs,
    reconcile source_bucket destination_bucket files objects s
      = (Return (objects ++ new), s') /\
    only_calls cs s s' /\
    map te_key new = map JStr files /\
    Forall (transfer_between source_bucket destination_bucket) new /\
    Forall (fun o => te_status o = "OK" \/ te_status o = "Deletion Error") new /\
    sweep_calls source_bucket destination_bucket files cs.
Proof.
  induction files as [| file rest IH]; intros objects s.
  - exists [], s, []. cbn [reconcile]. unfold ret. rewrite app_nil_r.
    split; [reflexivity |]. split; [apply only_calls_refl |].
    repeat split; auto. exists []. split; [reflexivity | constructor].
  - destruct (reconcile_one_total file s)
      as (o & s1 & cs1 & Hrun & Hframe & Hk & Hs & Hd & Hst & [k ->]).
    destruct (IH (objects ++ [o]) s1)
      as (new & s2 & cs2 & Hrun2 & Hframe2 & Hk2 & Hb2 & Hst2 & Hcs2).
    exists (o :: new), s2. eexists.
    cbn [reconcile]. unfold bind. rewrite Hrun, Hrun2, <- app_assoc.
    split; [reflexivity |].
    split; [eapply only_calls_trans; eassumption |].
    cbn [map]. rewrite Hk, Hk2.
    repeat split; auto using sweep_calls_cons.
    constructor; [split |]; assumption.
Qed.

Lemma reconcile_app (xs ys : list string) :
  forall (objects : list TransferEvent) (s : State W),
    reconcile source_bucket destination_bucket (xs ++ ys) objects s =
      (done <- reconcile source_bucket destination_bucket xs objects ;;
       reconcile source_bucket destination_bucket ys done) s.
Proof.
  induction xs as [| x xs IH]; intros objects s.
  - reflexivity.
  - cbn [app reconcile]. unfold bind.
    destruct (reconcile_one source_bucket destination_bucket x s)
      as [[o | e] s1]; [| reflexivity].
    rewrite IH. reflexivity.
Qed.

(** *** [POST /events/cos], path by path *)

(** The payload fails [if event:]. *)
Lemma handle_cos_event_falsy (body : option json) (s : State W) (n : Z) :
  truthy (get_json_silent body) = false ->
  event_stats s !! "cos_error" = Some n ->
  handle_cos_event source_bucket destination_bucket body s =
    (Raise (ExHTTP 400),
     mkState (<["cos_error" := n + 1]> (event_stats s)) (event_history s)
             (buckets s) (snd (datetime_now (world s))) (calls s)).
Proof.
  intros Hf Hn. unfold handle_cos_event.
  unfold bind at 1. rewrite now_run, Hf.
  unfold bind at 1. erewrite stats_getitem_run by exact Hn.
  reflexivity.
Qed.

(** The payload names another bucket. *)
Lemma handle_cos_event_wrong_bucket
      (items : list (string * json)) (bucket : json) (s : State W) (n : Z) :
  dict_get items "bucket" = Some bucket ->
  py_ne_str bucket source_bucket = true ->
  event_stats s !! "cos_error" = Some n ->
  handle_cos_event source_bucket destination_bucket (Some (JObj items)) s =
    (Raise (ExHTTP 400),
     mkState (<["cos_error" := n + 1]> (event_stats s)) (event_history s)
             (buckets s) (snd (datetime_now (world s))) (calls s)).
Proof.
  intros Hb Hne Hn. unfold handle_cos_event.
  unfold bind at 1. rewrite now_run.
  cbn [get_json_silent]. rewrite (dict_get_truthy _ _ _ Hb).
  unfold getitem at 1. rewrite Hb.
  unfold bind at 1, ret at 1. rewrite Hne.
  unfold bind at 1. unfold bind at 1.
  erewrite stats_getitem_run by exact Hn.
  reflexivity.
Qed.

(** The payload is truthy but has no ['bucket'] to read: the lookup
    raises before any counter is touched. *)
Lemma handle_cos_event_no_bucket (body : option json) (s : State W) :
  truthy (get_json_silent body) = true ->
  (forall items, get_json_silent body = JObj items ->
                 dict_get items "bucket" = None) ->
  exists e,
    handle_cos_event source_bucket destination_bucket body s =
      (Raise e,
       mkState (event_stats s) (event_history s) (buckets s)
               (snd (datetime_now (world s))) (calls s))
    /\ (e = ExKeyError "bucket" \/ e = ExTypeError).
Proof.
  intros Ht Hno. unfold handle_cos_event.
  unfold bind at 1. rewrite now_run, Ht.
  unfold bind at 1.
  destruct (get_json_silent body) as [| | | | | |items] eqn:E;
    try (exists ExTypeError; split; [reflexivity | auto]).
  exists (ExKeyError "bucket"). unfold getitem. rewrite (Hno items eq_refl).
  split; [reflexivity | auto].
Qed.

(** The payload names the configured bucket but has no ['key']. *)
Lemma handle_cos_event_no_key
      (items : list (string * json)) (s : State W) (n : Z) :
  dict_get items "bucket" = Some (JStr source_bucket) ->
  dict_get items "key" = None ->
  event_stats s !! "cos" = Some n ->
  handle_cos_event source_bucket destination_bucket (Some (JObj items)) s =
    (Raise (ExKeyError "key"),
     mkState (<["cos" := n + 1]> (event_stats s)) (event_history s)
             (buckets s) (snd (datetime_now (world s))) (calls s)).
Proof.
  intros Hb Hk Hn. unfold handle_cos_event.
  unfold bind at 1. rewrite now_run.
  cbn [get_json_silent]. rewrite (dict_get_truthy _ _ _ Hb).
  unfold getitem. rewrite Hb, Hk.
  unfold bind at 1, ret at 1. rewrite py_ne_str_same.
  unfold bind at 1, ret at 1. unfold bind at 1.
  erewrite stats_getitem_run by exact Hn.
  reflexivity.
Qed.

(** The payload names the configured bucket and a key: the accepted
    path, given what the guarded migration did. *)
Lemma handle_cos_event_accepted_run
      (items : list (string * json)) (key : json) (s : State W) (n : Z)
      (status : string) (s2 : State W) :
  dict_get items "bucket" = Some (JStr source_bucket) ->
  dict_get items "key" = Some key ->
  event_stats s !! "cos" = Some n ->
  try_except_COSError
    (FileHandler_do (mkFileHandler source_bucket destination_bucket key) ;;;
     ret "OK")
    (fun _ => ret "Deletion Error") (cos_started s n) = (Return status, s2) ->
  event_stats s2 = event_stats (cos_started s n) ->
  handle_cos_event source_bucket destination_bucket (Some (JObj items)) s =
    (Return (Text "OK"),
     mkState (event_stats s2)
       (event_history s2 ++
          [mkHistoryEvent ("cos-" ++ str (n + 1))
             (fst (datetime_now (world s)))
             [mkTransferEvent key (fst (datetime_now (world s2)))
                source_bucket destination_bucket status]])
       (if str_in source_bucket (buckets s2) then buckets s2
        else buckets s2 ++ [source_bucket])
       (snd (datetime_now (world s2)))
       (calls s2)).
Proof.
  intros Hb Hk Hn Hrun E2. unfold handle_cos_event.
  unfold bind at 1. rewrite now_run.
  cbn [get_json_silent]. rewrite (dict_get_truthy _ _ _ Hb).
  unfold getitem. rewrite Hb, Hk.
  unfold bind at 1, ret at 1. rewrite py_ne_str_same.
  unfold bind at 1, ret at 1. unfold bind at 1.
  erewrite stats_getitem_run by exact Hn.
  unfold bind at 1, stats_setitem at 1.
  unfold bind at 1, ret at 1.
  cbn [event_stats event_history buckets world calls].
  fold (cos_started s n).
  unfold bind at 1. rewrite Hrun.
  unfold bind at 1.
  erewrite stats_getitem_run
    by (rewrite E2; unfold cos_started; apply lookup_insert_eq).
  unfold bind at 1. rewrite now_run.
  unfold bind at 1, history_append at 1.
  unfold bind at 1, get_buckets at 1.
  cbn [event_stats event_history buckets world calls].
  destruct (str_in source_bucket (buckets s2)); reflexivity.
Qed.

Lemma handle_cos_event_accepted
      (items : list (string * json)) (key : json) (s : State W) (n : Z) :
  dict_get items "bucket" = Some (JStr source_bucket) ->
  dict_get items "key" = Some key ->
  event_stats s !! "cos" = Some n ->
  exists status t s' k,
    handle_cos_event source_bucket destination_bucket (Some (JObj items)) s
      = (Return (Text "OK"), s') /\
    event_stats s' = <["cos" := n + 1]> (event_stats s) /\
    event_history s' =
      event_history s ++
        [mkHistoryEvent ("cos-" ++ str (n + 1))
           (fst (datetime_now (world s)))
           [mkTransferEvent key t source_bucket destination_bucket status]] /\
    buckets s' =
      (if str_in source_bucket (buckets s) then buckets s
       else buckets s ++ [source_bucket]) /\
    calls s' =
      calls s ++
        take (S k) (pipeline_calls
                      (mkFileHandler source_bucket destination_bucket key)) /\
    (status = "OK" \/ status = "Deletion Error").
Proof.
  intros Hb Hk Hn.
  destruct (guarded_do_total
              (mkFileHandler source_bucket destination_bucket key)
              (cos_started s n))
    as (status & s2 & cs & Hrun & (E2 & H2 & B2 & C2) & Hst & [k ->]).
  exists status, (fst (datetime_now (world s2))).
  eexists; exists k.
  split; [eapply handle_cos_event_accepted_run; eassumption |].
  cbn [event_stats event_history buckets world calls].
  rewrite E2, H2, B2, C2. unfold cos_started.
  cbn [event_stats event_history buckets world calls]. auto 10.
Qed.

(** *** What the guarded migration answers, by the step that fails *)

Lemma guarded_do_fetch_fails (self : FileHandler) (s : State W)
      (e : COSError) (w1 : W) :
  get_file (fh_source_bucket self) (fh_file self) (world s) = (inl e, w1) ->
  try_except_COSError (FileHandler_do self ;;; ret "OK")
                      (fun _ => ret "Deletion Error") s =
    (Return "Deletion Error",
     mkState (event_stats s) (event_history s) (buckets s) w1
             (calls s ++ take 1 (pipeline_calls self))).
Proof.
  intros G.
  unfold try_except_COSError, FileHandler_do, bind, cos_get_file.
  rewrite cos_call_run, G. reflexivity.
Qed.

Lemma guarded_do_store_fails (self : FileHandler) (s : State W)
      (e : COSError) (w1 w2 : W) :
  get_file (fh_source_bucket self) (fh_file self) (world s) = (inr tt, w1) ->
  put_file (fh_destination_bucket self) (fh_file self) w1 = (inl e, w2) ->
  try_except_COSError (FileHandler_do self ;;; ret "OK")
                      (fun _ => ret "Deletion Error") s =
    (Return "Deletion Error",
     mkState (event_stats s) (event_history s) (buckets s) w2
             (calls s ++ take 2 (pipeline_calls self))).
Proof.
  intros G P.
  unfold try_except_COSError, FileHandler_do, bind,
    cos_get_file, cos_put_file.
  rewrite cos_call_run, G. cbn [fst snd].
  rewrite cos_call_run. cbn [world calls event_stats event_history buckets].
  rewrite P. cbn [fst snd]. rewrite <- app_assoc. reflexivity.
Qed.

Lemma guarded_do_delete_fails (self : FileHandler) (s : State W)
      (e : COSError) (w1 w2 w3 : W) :
  get_file (fh_source_bucket self) (fh_file self) (world s) = (inr tt, w1) ->
  put_file (fh_destination_bucket self) (fh_file self) w1 = (inr tt, w2) ->
  delete_file (fh_source_bucket self) (fh_file self) w2 = (inl e, w3) ->
  try_except_COSError (FileHandler_do self ;;; ret "OK")
                      (fun _ => ret "Deletion Error") s =
    (Return "Deletion Error",
     mkState (event_stats s) (event_history s) (buckets s) w3
             (calls s ++ pipeline_calls self)).
Proof.
  intros G P D.
  unfold try_except_COSError, FileHandler_do, bind,
    cos_get_file, cos_put_file, cos_delete_file.
  rewrite cos_call_run, G. cbn [fst snd].
  rewrite cos_call_run. cbn [world calls event_stats event_history buckets].
  rewrite P. cbn [fst snd]. unfold try_except_COSError, raise.
  rewrite cos_call_run. cbn [world calls event_stats event_history buckets].
  rewrite D. cbn [fst snd]. rewrite <- !app_assoc. reflexivity.
Qed.

Lemma guarded_do_ok (self : FileHandler) (s : State W) (w1 w2 w3 : W) :
  get_file (fh_source_bucket self) (fh_file self) (world s) = (inr tt, w1) ->
  put_file (fh_destination_bucket self) (fh_file self) w1 = (inr tt, w2) ->
  delete_file (fh_source_bucket self) (fh_file self) w2 = (inr tt, w3) ->
  try_except_COSError (FileHandler_do self ;;; ret "OK")
                      (fun _ => ret "Deletion Error") s =
    (Return "OK",
     mkState (event_stats s) (event_history s) (buckets s) w3
             (calls s ++ pipeline_calls self)).
Proof.
  intros G P D.
  unfold try_except_COSError, FileHandler_do, bind,
    cos_get_file, cos_put_file, cos_delete_file.
  rewrite cos_call_run, G. cbn [fst snd].
  rewrite cos_call_run. cbn [world calls event_stats event_history buckets].
  rewrite P. cbn [fst snd]. unfold try_except_COSError, raise.
  rewrite cos_call_run. cbn [world calls event_stats event_history buckets].
  rewrite D. cbn [fst snd]. rewrite <- !app_assoc. reflexivity.
Qed.

(** *** [POST /events/cron], path by path *)

Lemma handle_cron_event_falsy (body : option json) (s : State W) (n : Z) :
  truthy (get_json_silent body) = false ->
  event_stats s !! "cron_error" = Some n ->
  handle_cron_event source_bucket destination_bucket body s =
    (Raise (ExHTTP 400),
     mkState (<["cron_error" := n + 1]> (event_stats s)) (event_history s)
             (buckets s) (world s) (calls s)).
Proof.
  intros Hf Hn. unfold handle_cron_event. rewrite Hf.
  unfold bind at 1. erewrite stats_getitem_run by exact Hn.
  reflexivity.
Qed.

Lemma handle_cron_event_listing_fails
      (body : option json) (s : State W) (n : Z) (e : COSError) :
  truthy (get_json_silent body) = true ->
  event_stats s !! "cron" = Some n ->
  fst (get_files_info source_bucket (snd (datetime_now (world s)))) = inl e ->
  handle_cron_event source_bucket destination_bucket body s =
    (Raise (ExCOS e), cron_listed source_bucket s n).
Proof.
  intros Ht Hn Hl. unfold handle_cron_event. rewrite Ht.
  unfold bind at 1. erewrite stats_getitem_run by exact Hn.
  unfold bind at 1, stats_setitem at 1.
  unfold bind at 1. rewrite now_run.
  cbn [event_stats event_history buckets world calls].
  unfold bind at 1.
  erewrite stats_getitem_run
    by (cbn [event_stats]; apply lookup_insert_eq).
  unfold bind at 1, cos_get_files_info. rewrite cos_call_run.
  cbn [event_stats event_history buckets world calls].
  rewrite Hl. reflexivity.
Qed.

Lemma handle_cron_event_accepted_run
      (body : option json) (s : State W) (n : Z)
      (source_inventory : list (string * file_info))
      (objects : list TransferEvent) (s2 : State W) :
  truthy (get_json_silent body) = true ->
  event_stats s !! "cron" = Some n ->
  fst (get_files_info source_bucket (snd (datetime_now (world s))))
    = inr source_inventory ->
  reconcile source_bucket destination_bucket (map fst source_inventory) []
            (cron_listed source_bucket s n) = (Return objects, s2) ->
  handle_cron_event source_bucket destination_bucket body s =
    (Return (Text "OK"),
     mkState (event_stats s2)
             (event_history s2 ++
                [mkHistoryEvent ("cron-" ++ str (n + 1))
                                (fst (datetime_now (world s))) objects])
             (buckets s2) (world s2) (calls s2)).
Proof.
  intros Ht Hn Hl Hrun. unfold handle_cron_event. rewrite Ht.
  unfold bind at 1. erewrite stats_getitem_run by exact Hn.
  unfold bind at 1, stats_setitem at 1.
  unfold bind at 1. rewrite now_run.
  cbn [event_stats event_history buckets world calls].
  unfold bind at 1.
  erewrite stats_getitem_run
    by (cbn [event_stats]; apply lookup_insert_eq).
  unfold bind at 1, cos_get_files_info. rewrite cos_call_run.
  cbn [event_stats event_history buckets world calls].
  rewrite Hl. fold (cron_listed source_bucket s n).
  unfold bind at 1. rewrite Hrun.
  reflexivity.
Qed.

(** *** Every path of [POST /events/cos] at once *)

Lemma handle_cos_event_effect (body : option json) (s : State W) :
  counters_present (event_stats s) ->
  let s' := snd (handle_cos_event source_bucket destination_bucket body s) in
  (screened body = true /\
   increments "cos_error" (event_stats s) (event_stats s') /\
   event_history s' = event_history s /\ buckets s' = buckets s /\
   calls s' = calls s)
  \/
  (screened body = true /\
   increments "cos" (event_stats s) (event_stats s') /\
   (event_history s' = event_history s \/
    exists h,
      event_history s' = event_history s ++ [h] /\
      Forall (transfer_between source_bucket destination_bucket)
             (he_objects h)) /\
   (buckets s' = buckets s \/
    str_in source_bucket (buckets s) = false /\
    buckets s' = buckets s ++ [source_bucket]))
  \/
  (screened body = false /\ same_ledger s s' /\ calls s' = calls s).
Proof.
  intros Hp.
  destruct (counters_present_lookup _ "cos" Hp) as [n Hn];
    [cbn; auto |].
  destruct (counters_present_lookup _ "cos_error" Hp) as [m Hm];
    [cbn; auto |].
  cbv zeta.
  destruct (truthy (get_json_silent body)) eqn:Ht.
  2: { left. rewrite (handle_cos_event_falsy body s m Ht Hm).
       unfold screened. rewrite Ht. cbn [snd event_stats event_history buckets calls].
       repeat split; auto. exists m. auto. }
  assert (Hcrash :
    (forall items, get_json_silent body = JObj items ->
                   dict_get items "bucket" = None) ->
    screened body = false ->
    screened body = false /\
    same_ledger s
      (snd (handle_cos_event source_bucket destination_bucket body s)) /\
    calls (snd (handle_cos_event source_bucket destination_bucket body s))
      = calls s).
  { intros Hno Hs.
    destruct (handle_cos_event_no_bucket body s Ht Hno) as (e & -> & _).
    split; [exact Hs |]. unfold same_ledger. cbn. auto. }
  destruct (get_json_silent body) as [| | | | | |items] eqn:E;
    try (right; right; apply Hcrash;
         [intros ? ?; discriminate | unfold screened; rewrite E, Ht; reflexivity]).
  destruct (dict_get items "bucket") as [bucket |] eqn:Hb.
  2: { right; right; apply Hcrash.
       - intros items' [= <-]. exact Hb.
       - unfold screened. rewrite E, Ht, Hb. reflexivity. }
  assert (Hs : screened body = true)
    by (unfold screened; rewrite E, Ht, Hb; reflexivity).
  assert (Hbody : body = Some (JObj items))
    by (destruct body; cbn in E; [congruence | discriminate]).
  subst body.
  destruct (py_ne_str bucket source_bucket) eqn:Hne.
  { left. rewrite (handle_cos_event_wrong_bucket items bucket s m Hb Hne Hm).
    cbn [snd event_stats event_history buckets calls].
    repeat split; auto. exists m. auto. }
  apply py_ne_str_false in Hne. subst bucket.
  right; left. split; [exact Hs |].
  destruct (dict_get items "key") as [key |] eqn:Hk.
  - destruct (handle_cos_event_accepted items key s n Hb Hk Hn)
      as (status & t & s' & k & -> & E' & H' & B' & _ & _).
    cbn [snd]. split; [exists n; auto |]. split.
    + right. eexists. split; [exact H' |].
      cbn [he_objects]. constructor; [| constructor]. split; reflexivity.
    + rewrite B'. destruct (str_in source_bucket (buckets s)); auto.
  - rewrite (handle_cos_event_no_key items s n Hb Hk Hn).
    cbn [snd event_stats event_history buckets].
    split; [exists n; auto |]. auto.
Qed.

(** *** Every path of [POST /events/cron] at once *)

Lemma handle_cron_event_effect (body : option json) (s : State W) :
  counters_present (event_stats s) ->
  let s' := snd (handle_cron_event source_bucket destination_bucket body s) in
  buckets s' = buckets s /\
  ((increments "cron_error" (event_stats s) (event_stats s') /\
    event_history s' = event_history s /\ calls s' = calls s)
   \/
   (increments "cron" (event_stats s) (event_stats s') /\
    (event_history s' = event_history s \/
     exists h,
       event_history s' = event_history s ++ [h] /\
       Forall (transfer_between source_bucket destination_bucket)
              (he_objects h)))).
Proof.
  intros Hp.
  destruct (counters_present_lookup _ "cron" Hp) as [n Hn];
    [cbn; auto |].
  destruct (counters_present_lookup _ "cron_error" Hp) as [m Hm];
    [cbn; auto |].
  cbv zeta.
  destruct (truthy (get_json_silent body)) eqn:Ht.
  2: { rewrite (handle_cron_event_falsy body s m Ht Hm).
       cbn [snd event_stats event_history buckets calls].
       split; [reflexivity |]. left. repeat split; auto. exists m. auto. }
  destruct (fst (get_files_info source_bucket
                   (snd (datetime_now (world s))))) as [e | inv] eqn:Hl.
  { rewrite (handle_cron_event_listing_fails body s n e Ht Hn Hl).
    unfold cron_listed. cbn [snd event_stats event_history buckets calls].
    split; [reflexivity |]. right. split; [exists n; auto | auto]. }
  destruct (reconcile_total (map fst inv) [] (cron_listed source_bucket s n))
    as (new & s2 & cs & Hrun & (E2 & H2 & B2 & C2) & _ & Hb & _ & _).
  rewrite (handle_cron_event_accepted_run body s n inv _ s2 Ht Hn Hl Hrun).
  cbn [snd event_stats event_history buckets calls].
  rewrite E2, H2, B2. unfold cron_listed.
  cbn [event_stats event_history buckets].
  split; [reflexivity |]. right. split; [exists n; auto |].
  right. eexists. split; [reflexivity |]. exact Hb.
Qed.

(** *** The read-only routes *)

Lemma inventory_same_ledger (bs : list string) :
  forall (file_inventory : gmap string (gmap string file_info)) (s : State W),
    same_ledger s (snd (inventory bs file_inventory s)).
Proof.
  induction bs as [| b rest IH]; intros file_inventory s.
  - cbn. unfold same_ledger. auto.
  - cbn [inventory]. unfold bind, cos_get_files_info.
    rewrite cos_call_run.
    destruct (fst (get_files_info b (world s))) as [e | bucket_files].
    + cbn. unfold same_ledger. auto.
    + specialize (IH (fold_left (record_file b) bucket_files file_inventory)
                     (mkState (event_stats s) (event_history s) (buckets s)
                              (snd (get_files_info b (world s)))
                              (calls s ++ [CallGetFilesInfo b]))).
      exact IH.
Qed.

Lemma get_files_same_ledger (s : State W) :
  same_ledger s (snd (get_files (file_info := file_info) s)).
Proof.
  unfold get_files, bind, get_buckets.
  pose proof (inventory_same_ledger (buckets s) ∅ s) as H.
  destruct (inventory (buckets s) ∅ s) as [[inv | e] s1]; exact H.
Qed.

(** *** What holds of the closure variables for as long as the process
    lives *)

Lemma create_server_ok (w : W) :
  ledger_ok source_bucket destination_bucket (create_server source_bucket destination_bucket w).
Proof.
  unfold ledger_ok, create_server. cbn [event_stats buckets event_history].
  split; [| split; [reflexivity | constructor]].
  unfold counters_present, counter_keys.
  repeat constructor; exists 0; reflexivity.
Qed.

Lemma same_ledger_ok (s s' : State W) :
  same_ledger s s' -> ledger_ok source_bucket destination_bucket s -> ledger_ok source_bucket destination_bucket s'.
Proof.
  intros (E & H & B) (Hp & Hb & Hh). unfold ledger_ok.
  rewrite E, H, B. auto.
Qed.

Lemma serve_read_only (r : request) (s : State W) :
  is_notification r = false -> is_reconciliation r = false ->
  same_ledger s (serve source_bucket destination_bucket s r).
Proof.
  destruct r; try discriminate; intros _ _; unfold serve, dispatch.
  - apply get_files_same_ledger.
  - cbn. unfold same_ledger. auto.
  - cbn. unfold same_ledger. auto.
Qed.

Lemma serve_ok (r : request) (s : State W) :
  ledger_ok source_bucket destination_bucket s -> ledger_ok source_bucket destination_bucket (serve source_bucket destination_bucket s r).
Proof.
  intros Hok.
  destruct r as [| | | body | body];
    try (eapply same_ledger_ok; [apply serve_read_only; reflexivity | exact Hok]).
  - destruct Hok as (Hp & Hb & Hh). unfold serve, dispatch, ledger_ok.
    destruct (handle_cos_event_effect body s Hp)
      as [(_ & Hi & H' & B' & _) | [(_ & Hi & H' & B') | (_ & (E' & H' & B') & _)]].
    + rewrite H', B'. eauto using increments_present.
    + split; [eauto using increments_present |]. split.
      * destruct B' as [-> | [Hin _]]; [exact Hb |].
        rewrite Hb, str_in_head in Hin. discriminate.
      * destruct H' as [-> | (h & -> & Hf)]; [exact Hh |].
        apply Forall_app. split; [exact Hh | constructor; [exact Hf | constructor]].
    + rewrite E', H', B'. auto.
  - destruct Hok as (Hp & Hb & Hh). unfold serve, dispatch, ledger_ok.
    destruct (handle_cron_event_effect body s Hp)
      as (B' & [(Hi & H' & _) | (Hi & H')]).
    + rewrite H', B'. eauto using increments_present.
    + rewrite B'. split; [eauto using increments_present |].
      split; [exact Hb |].
      destruct H' as [-> | (h & -> & Hf)]; [exact Hh |].
      apply Forall_app. split; [exact Hh | constructor; [exact Hf | constructor]].
Qed.

Lemma serve_all_ok (rs : list request) :
  forall s : State W,
    ledger_ok source_bucket destination_bucket s -> ledger_ok source_bucket destination_bucket (serve_all source_bucket destination_bucket rs s).
Proof.
  induction rs as [| r rs IH]; intros s Hok; [exact Hok |].
  change (serve_all source_bucket destination_bucket (r :: rs) s)
    with (serve_all source_bucket destination_bucket rs
            (serve source_bucket destination_bucket s r)).
  apply IH, serve_ok, Hok.
Qed.

(** *** Counting notifications *)

Lemma serve_notification_total (r : request) (s : State W) :
  ledger_ok source_bucket destination_bucket s ->
  notification_total (serve source_bucket destination_bucket s r) =
    notification_total s +
    (if is_notification r && screened_request r then 1 else 0).
Proof.
  intros Hok. unfold notification_total.
  destruct r as [| | | body | body];
    try (match goal with
         | |- context [serve _ _ s ?r] =>
             rewrite !(same_ledger_counter _ _ _ _
                         (serve_read_only r s eq_refl eq_refl))
         end; cbn; lia).
  - destruct Hok as (Hp & _). unfold serve, dispatch.
    cbn [is_notification screened_request andb].
    destruct (handle_cos_event_effect body s Hp)
      as [(-> & Hi & _) | [(-> & Hi & _) | (-> & Hs & _)]].
    + rewrite !(increments_counter _ _ _ _ _ Hi). cbn. lia.
    + rewrite !(increments_counter _ _ _ _ _ Hi). cbn. lia.
    + rewrite !(same_ledger_counter _ _ _ _ Hs). lia.
  - destruct Hok as (Hp & _). unfold serve, dispatch.
    cbn [is_notification andb].
    destruct (handle_cron_event_effect body s Hp)
      as (_ & [(Hi & _) | (Hi & _)]);
      rewrite !(increments_counter _ _ _ _ _ Hi); cbn; lia.
Qed.

Lemma serve_all_notification_total (rs : list request) :
  forall s : State W,
    ledger_ok source_bucket destination_bucket s ->
    notification_total (serve_all source_bucket destination_bucket rs s) =
      notification_total s +
      Z.of_nat
        (length (List.filter (fun r => is_notification r && screened_request r) rs)).
Proof.
  induction rs as [| r rs IH]; intros s Hok.
  - cbn. lia.
  - change (serve_all source_bucket destination_bucket (r :: rs) s)
      with (serve_all source_bucket destination_bucket rs
              (serve source_bucket destination_bucket s r)).
    rewrite IH by (apply serve_ok, Hok).
    rewrite serve_notification_total by exact Hok.
    cbn [List.filter].
    destruct (is_notification r && screened_request r); cbn [length]; lia.
Qed.

Lemma reconcile_one_delete_fails (file : string) (s : State W)
      (e : COSError) (w1 w2 w3 : W) :
  get_file source_bucket (JStr file) (world s) = (inr tt, w1) ->
  put_file destination_bucket (JStr file) w1 = (inr tt, w2) ->
  delete_file source_bucket (JStr file) w2 = (inl e, w3) ->
  reconcile_one source_bucket destination_bucket file s =
    (Return (mkTransferEvent (JStr file) (fst (datetime_now w3))
               source_bucket destination_bucket "Deletion Error"),
     mkState (event_stats s) (event_history s) (buckets s)
             (snd (datetime_now w3))
             (calls s ++
                pipeline_calls
                  (mkFileHandler source_bucket destination_bucket
                                 (JStr file)))).
Proof.
  intros G P D. unfold reconcile_one.
  unfold bind at 1.
  rewrite (guarded_do_delete_fails
             (mkFileHandler source_bucket destination_bucket (JStr file))
             s e w1 w2 w3 G P D).
  unfold bind. rewrite now_run. reflexivity.
Qed.

Lemma reconcile_length (files : list string) (objects done : list TransferEvent)
      (s s' : State W) :
  reconcile source_bucket destination_bucket files objects s
    = (Return done, s') ->
  length done = (length objects + length files)%nat.
Proof.
  intros Hrun.
  destruct (reconcile_total files objects s)
    as (new & s2 & cs & Hrun2 & _ & Hk & _).
  rewrite Hrun in Hrun2. injection Hrun2 as -> _.
  rewrite length_app. f_equal.
  rewrite <- (length_map te_key), Hk, length_map. reflexivity.
Qed.
End Facts.

(** * The specification, statement by statement *)

Section Specification.
Context {W file_info : Type} `{Env : Environment W file_info}.
Variables (source_bucket destination_bucket : string).

(** C7: a notification whose payload names the configured source bucket
    and a key is answered with success, raises [cos] by exactly one,
    leaves the other counters alone, and appends exactly one history
    record, which holds exactly one transfer event, for that key. *)
Theorem accepted_notification_appends_one_record
        (items : list (string * json)) (key : json) (s : State W) (n : Z) :
  dict_get items "bucket" = Some (JStr source_bucket) ->
  dict_get items "key" = Some key ->
  event_stats s !! "cos" = Some n ->
  exists (record : HistoryEvent) (o : TransferEvent) (s' : State W),
    handle_cos_event source_bucket destination_bucket (Some (JObj items)) s
      = (Return (Text "OK"), s') /\
    event_stats s' = <["cos" := n + 1]> (event_stats s) /\
    event_history s' = event_history s ++ [record] /\
    he_objects record = [o] /\
    te_key o = key.
Proof.
  intros Hb Hk Hn.
  destruct (handle_cos_event_accepted source_bucket destination_bucket
              items key s n Hb Hk Hn)
    as (status & t & s' & k & Hrun & E' & H' & _).
  eexists _, _, s'. repeat split; [exact Hrun | exact E' | exact H' | ..];
    reflexivity.
Qed.

(** C8: a notification whose payload is an object that declares another
    bucket than the configured source is answered with status 400, raises
    [cos_error] by exactly one, appends nothing to the history and calls
    the storage client not at all; only the clock has been read. *)
Theorem foreign_bucket_notification_rejected
        (items : list (string * json)) (bucket : json) (s : State W) (n : Z) :
  dict_get items "bucket" = Some bucket ->
  py_ne_str bucket source_bucket = true ->
  event_stats s !! "cos_error" = Some n ->
  exists (r : result (response file_info)) (s' : State W),
    handle_cos_event source_bucket destination_bucket (Some (JObj items)) s
      = (r, s') /\
    r = Raise (ExHTTP 400) /\ status_code r = 400 /\
    event_stats s' = <["cos_error" := n + 1]> (event_stats s) /\
    event_history s' = event_history s /\
    buckets s' = buckets s /\
    calls s' = calls s /\
    world s' = snd (datetime_now (world s)).
Proof.
  intros Hb Hne Hn.
  rewrite (handle_cos_event_wrong_bucket source_bucket destination_bucket
             items bucket s n Hb Hne Hn).
  eexists _, _. split; [reflexivity |]. cbn. auto 10.
Qed.

(** C6: a reconciliation trigger with an accepted payload, over a source
    bucket whose listing succeeds with the keys of [source_inventory], is
    answered with success and appends exactly one history record; the
    record holds one transfer event per listed key, in listing order,
    whatever the storage client answered for each key, and a download was
    attempted for every listed key.  The loop itself never touches the
    history: the record is appended after it. *)
Theorem sweep_appends_one_record_for_all_keys
        (body : option json) (s : State W) (n : Z)
        (source_inventory : list (string * file_info)) :
  truthy (get_json_silent body) = true ->
  event_stats s !! "cron" = Some n ->
  fst (get_files_info source_bucket (snd (datetime_now (world s))))
    = inr source_inventory ->
  (exists (record : HistoryEvent) (s' : State W) (cs : list cos_call),
     handle_cron_event source_bucket destination_bucket body s
       = (Return (Text "OK"), s') /\
     event_history s' = event_history s ++ [record] /\
     length (he_objects record) = length source_inventory /\
     map te_key (he_objects record)
       = map (fun item => JStr (fst item)) source_inventory /\
     Forall (fun o => te_status o = "OK" \/ te_status o = "Deletion Error")
            (he_objects record) /\
     calls s' = calls s ++ CallGetFilesInfo source_bucket :: cs /\
     downloads cs = map (fun item => JStr (fst item)) source_inventory)
  /\
  (forall (files : list string) (objects : list TransferEvent) (s0 : State W),
     event_history
       (snd (reconcile source_bucket destination_bucket files objects s0))
     = event_history s0).
Proof.
  intros Ht Hn Hl. split.
  - destruct (reconcile_total source_bucket destination_bucket
                (map fst source_inventory) []
                (cron_listed source_bucket s n))
      as (new & s2 & cs & Hrun & (E2 & H2 & B2 & C2) & Hk & _ & Hst & Hcs).
    rewrite (handle_cron_event_accepted_run source_bucket destination_bucket
               body s n source_inventory _ s2 Ht Hn Hl Hrun).
    eexists _, _, cs. split; [reflexivity |].
    cbn [event_history he_objects calls app]. rewrite H2, C2.
    unfold cron_listed. cbn [event_history calls].
    rewrite <- app_assoc. cbn [app].
    split; [reflexivity |]. cbn [he_objects].
    rewrite (sweep_calls_downloads _ _ _ _ Hcs), Hk, map_map.
    repeat split; auto.
    rewrite <- (length_map te_key), Hk, !length_map. reflexivity.
  - intros files objects s0.
    destruct (reconcile_total source_bucket destination_bucket
                files objects s0)
      as (new & s2 & cs & -> & (_ & H2 & _) & _).
    exact H2.
Qed.

(** C2: when download and upload of a key succeed and only the delete
    fails with a storage error, the transfer event recorded for the key
    has status ['Deletion Error'] and the trigger is still answered with
    success, for a notification and within a sweep alike.  Nothing is
    undone: the handler of a notification issues no client call after
    the failed delete, and the sweep goes on with the calls of the keys
    listed after it. *)
Theorem delete_failure_recorded_not_escalated :
  (forall (items : list (string * json)) (key : json) (s : State W) (n : Z)
          (e : COSError) (w1 w2 w3 : W),
     dict_get items "bucket" = Some (JStr source_bucket) ->
     dict_get items "key" = Some key ->
     event_stats s !! "cos" = Some n ->
     get_file source_bucket key (snd (datetime_now (world s))) = (inr tt, w1) ->
     put_file destination_bucket key w1 = (inr tt, w2) ->
     delete_file source_bucket key w2 = (inl e, w3) ->
     exists (r : result (response file_info)) (s' : State W),
       handle_cos_event source_bucket destination_bucket
                        (Some (JObj items)) s = (r, s') /\
       r = Return (Text "OK") /\ status_code r = 200 /\
       event_history s' =
         event_history s ++
           [mkHistoryEvent ("cos-" ++ str (n + 1))
              (fst (datetime_now (world s)))
              [mkTransferEvent key (fst (datetime_now w3)) source_bucket
                 destination_bucket "Deletion Error"]] /\
       calls s' =
         calls s ++
           [CallGetFile source_bucket key;
            CallPutFile destination_bucket key;
            CallDeleteFile source_bucket key] /\
       world s' = snd (datetime_now w3))
  /\
  (forall (body : option json) (s : State W) (n : Z)
          (source_inventory : list (string * file_info))
          (before after : list string) (file : string)
          (done : list TransferEvent) (s1 : State W)
          (e : COSError) (w1 w2 w3 : W),
     truthy (get_json_silent body) = true ->
     event_stats s !! "cron" = Some n ->
     fst (get_files_info source_bucket (snd (datetime_now (world s))))
       = inr source_inventory ->
     map fst source_inventory = before ++ file :: after ->
     reconcile source_bucket destination_bucket before []
               (cron_listed source_bucket s n) = (Return done, s1) ->
     get_file source_bucket (JStr file) (world s1) = (inr tt, w1) ->
     put_file destination_bucket (JStr file) w1 = (inr tt, w2) ->
     delete_file source_bucket (JStr file) w2 = (inl e, w3) ->
     exists (r : result (response file_info)) (record : HistoryEvent)
            (s' : State W) (later : list cos_call),
       handle_cron_event source_bucket destination_bucket body s = (r, s') /\
       r = Return (Text "OK") /\ status_code r = 200 /\
       event_history s' = event_history s ++ [record] /\
       he_objects record !! length before =
         Some (mkTransferEvent (JStr file) (fst (datetime_now w3))
                 source_bucket destination_bucket "Deletion Error") /\
       calls s' =
         calls s1 ++
           [CallGetFile source_bucket (JStr file);
            CallPutFile destination_bucket (JStr file);
            CallDeleteFile source_bucket (JStr file)] ++ later /\
       sweep_calls source_bucket destination_bucket after later).
Proof.
  split.
  - intros items key s n e w1 w2 w3 Hb Hk Hn G P D.
    pose proof (guarded_do_delete_fails
                  (mkFileHandler source_bucket destination_bucket key)
                  (cos_started s n) e w1 w2 w3 G P D) as Hrun.
    rewrite (handle_cos_event_accepted_run source_bucket destination_bucket
               items key s n _ _ Hb Hk Hn Hrun eq_refl).
    eexists _, _. split; [reflexivity |].
    cbn [event_history calls world status_code]. unfold cos_started.
    cbn [event_history calls world]. auto 10.
  - intros body s n source_inventory before after file done s1 e w1 w2 w3
           Ht Hn Hl Hsplit Hbefore G P D.
    pose proof (reconcile_length source_bucket destination_bucket
                  _ _ _ _ _ Hbefore) as Hlen.
    cbn [length Nat.add] in Hlen.
    pose proof (reconcile_one_delete_fails source_bucket destination_bucket
                  file s1 e w1 w2 w3 G P D) as Hone.
    destruct (reconcile_total source_bucket destination_bucket after
                (done ++ [mkTransferEvent (JStr file) (fst (datetime_now w3))
                            source_bucket destination_bucket
                            "Deletion Error"])
                (mkState (event_stats s1) (event_history s1) (buckets s1)
                         (snd (datetime_now w3))
                         (calls s1 ++
                            pipeline_calls
                              (mkFileHandler source_bucket destination_bucket
                                             (JStr file)))))
      as (new & s2 & later & Hafter & (E2 & H2 & B2 & C2) & _ & _ & _ & Hcs).
    assert (Hrun :
      reconcile source_bucket destination_bucket (map fst source_inventory) []
                (cron_listed source_bucket s n)
      = (Return ((done ++ [mkTransferEvent (JStr file) (fst (datetime_now w3))
                             source_bucket destination_bucket
                             "Deletion Error"]) ++ new), s2)).
    { rewrite Hsplit, reconcile_app. unfold bind at 1. rewrite Hbefore.
      cbn [reconcile]. unfold bind at 1. rewrite Hone. exact Hafter. }
    rewrite (handle_cron_event_accepted_run source_bucket destination_bucket
               body s n source_inventory _ s2 Ht Hn Hl Hrun).
    destruct (reconcile_total source_bucket destination_bucket before []
                (cron_listed source_bucket s n))
      as (new0 & s1' & cs0 & Hbefore' & (_ & H1 & _) & _).
    rewrite Hbefore in Hbefore'. injection Hbefore' as _ <-.
    eexists _, _, _, later. split; [reflexivity |].
    cbn [event_history he_objects calls status_code].
    rewrite H2, C2. cbn [event_history calls]. rewrite H1.
    unfold cron_listed at 1. cbn [event_history].
    repeat split; auto.
    + rewrite <- app_assoc. cbn [app]. rewrite <- Hlen.
      apply list_lookup_middle. reflexivity.
    + rewrite <- app_assoc. reflexivity.
Qed.

(** C3, amended: a reconciliation trigger, and a notification trigger
    whose payload either fails the format check or is an object with a
    ['bucket'] entry, raises exactly one of the four counters, by exactly
    one, and leaves the other three as they were; the counter is [cos] or
    [cos_error] for a notification, [cron] or [cron_error] for a
    reconciliation. *)
Theorem screened_trigger_increments_one_counter
        (r : request) (s : State W) :
  counters_present (event_stats s) ->
  is_notification r || is_reconciliation r = true ->
  screened_request r = true ->
  exists (k : string) (n : Z),
    In k counter_keys /\
    (is_notification r = true -> k = "cos" \/ k = "cos_error") /\
    (is_reconciliation r = true -> k = "cron" \/ k = "cron_error") /\
    event_stats s !! k = Some n /\
    event_stats (serve source_bucket destination_bucket s r) !! k
      = Some (n + 1) /\
    (forall k', k' <> k ->
       event_stats (serve source_bucket destination_bucket s r) !! k'
       = event_stats s !! k').
Proof.
  intros Hp Htrig Hscr.
  assert (Hgoal : forall k,
    In k counter_keys ->
    (is_notification r = true -> k = "cos" \/ k = "cos_error") ->
    (is_reconciliation r = true -> k = "cron" \/ k = "cron_error") ->
    increments k (event_stats s)
      (event_stats (serve source_bucket destination_bucket s r)) ->
    exists (k : string) (n : Z),
      In k counter_keys /\
      (is_notification r = true -> k = "cos" \/ k = "cos_error") /\
      (is_reconciliation r = true -> k = "cron" \/ k = "cron_error") /\
      event_stats s !! k = Some n /\
      event_stats (serve source_bucket destination_bucket s r) !! k
        = Some (n + 1) /\
      (forall k', k' <> k ->
         event_stats (serve source_bucket destination_bucket s r) !! k'
         = event_stats s !! k')).
  { intros k Hin Hn Hc Hi.
    apply increments_lookup in Hi as [(n & Ho & Hnew) Hother].
    exists k, n. auto 10. }
  destruct r as [| | | body | body]; try discriminate;
    cbn [screened_request] in Hscr; unfold serve, dispatch in *.
  - destruct (handle_cos_event_effect source_bucket destination_bucket
                body s Hp)
      as [(_ & Hi & _) | [(_ & Hi & _) | (Hs & _)]].
    + apply (Hgoal "cos_error"); cbn; auto; discriminate.
    + apply (Hgoal "cos"); cbn; auto; discriminate.
    + congruence.
  - destruct (handle_cron_event_effect source_bucket destination_bucket
                body s Hp)
      as (_ & [(Hi & _) | (Hi & _)]).
    + apply (Hgoal "cron_error"); cbn; auto; discriminate.
    + apply (Hgoal "cron"); cbn; auto; discriminate.
Qed.

(** C5, amended: at every point of a run in which every notification
    payload either fails the format check or is an object with a
    ['bucket'] entry, [cos] plus [cos_error] is the number of
    notification triggers received so far. *)
Theorem screened_notifications_all_counted (rs : list request) (w : W) :
  forallb screened_request rs = true ->
  notification_total
    (serve_all source_bucket destination_bucket rs
               (create_server source_bucket destination_bucket w))
  = Z.of_nat (notifications_received rs).
Proof.
  intros Hall.
  rewrite serve_all_notification_total by apply create_server_ok.
  unfold notifications_received.
  replace (List.filter (fun r => is_notification r && screened_request r) rs)
    with (List.filter is_notification rs).
  - reflexivity.
  - apply List.filter_ext_in. intros r Hin.
    rewrite forallb_forall in Hall. rewrite (Hall r Hin).
    rewrite andb_true_r. reflexivity.
Qed.

(** C9: whatever requests have been served since [create_server], every
    transfer event in the history names the configured source bucket as
    its source and the configured destination bucket as its
    destination. *)
Theorem history_names_configured_buckets (rs : list request) (w : W) :
  Forall
    (fun h =>
       Forall (fun o => te_source_bucket o = source_bucket /\
                        te_destination_bucket o = destination_bucket)
              (he_objects h))
    (event_history
       (serve_all source_bucket destination_bucket rs
                  (create_server source_bucket destination_bucket w))).
Proof.
  destruct (serve_all_ok source_bucket destination_bucket rs
              (create_server source_bucket destination_bucket w)
              (create_server_ok source_bucket destination_bucket w))
    as (_ & _ & Hh).
  exact Hh.
Qed.

(** C10: whatever requests have been served since [create_server], the
    bucket list is the configured source bucket followed by the
    configured destination bucket; the source bucket is found in it, so
    the append at the end of the notification handler is never taken. *)
Theorem buckets_never_change (rs : list request) (w : W) :
  buckets (serve_all source_bucket destination_bucket rs
                     (create_server source_bucket destination_bucket w))
    = [source_bucket; destination_bucket] /\
  str_in source_bucket
         (buckets (serve_all source_bucket destination_bucket rs
                             (create_server source_bucket destination_bucket w)))
    = true.
Proof.
  destruct (serve_all_ok source_bucket destination_bucket rs
              (create_server source_bucket destination_bucket w)
              (create_server_ok source_bucket destination_bucket w))
    as (_ & Hb & _).
  rewrite Hb. split; [reflexivity | apply str_in_head].
Qed.

(** C4: at any point of the process lifetime, a reconciliation request
    whose body is the empty JSON object is answered with status 400 and
    counted under [cron_error]; [cron] is not raised, the source bucket
    is not listed and no history record is appended. *)
Theorem empty_object_sweep_rejected (rs : list request) (w : W) :
  let s := serve_all source_bucket destination_bucket rs
             (create_server source_bucket destination_bucket w) in
  exists (n : Z) (r : result (response file_info)),
    event_stats s !! "cron_error" = Some n /\
    handle_cron_event source_bucket destination_bucket (Some (JObj [])) s
    = (r,
       mkState (<["cron_error" := n + 1]> (event_stats s)) (event_history s)
               (buckets s) (world s) (calls s)) /\
    r = Raise (ExHTTP 400) /\ status_code r = 400.
Proof.
  intros s.
  destruct (serve_all_ok source_bucket destination_bucket rs
              (create_server source_bucket destination_bucket w)
              (create_server_ok source_bucket destination_bucket w))
    as (Hp & _ & _).
  fold s in Hp.
  destruct (counters_present_lookup _ "cron_error" Hp) as [n Hn];
    [cbn; auto |].
  exists n. eexists. split; [exact Hn |].
  rewrite (handle_cron_event_falsy source_bucket destination_bucket
             (Some (JObj [])) s n eq_refl Hn).
  split; [reflexivity |]. split; reflexivity.
Qed.

(** C1: a notification for the configured bucket whose download, or whose
    upload, fails with a storage error is answered with success all the
    same: the [COSError] is caught by the handler's [except COSError], and
    a history record is appended whose transfer event has status
    ['Deletion Error'], although no delete was attempted. *)
Theorem storage_failure_before_delete_is_swallowed :
  (forall (items : list (string * json)) (key : json) (s : State W) (n : Z)
          (e : COSError) (w1 : W),
     dict_get items "bucket" = Some (JStr source_bucket) ->
     dict_get items "key" = Some key ->
     event_stats s !! "cos" = Some n ->
     get_file source_bucket key (snd (datetime_now (world s))) = (inl e, w1) ->
     exists (r : result (response file_info)) (s' : State W),
       handle_cos_event source_bucket destination_bucket
                        (Some (JObj items)) s = (r, s') /\
       r = Return (Text "OK") /\
       event_history s' =
         event_history s ++
           [mkHistoryEvent ("cos-" ++ str (n + 1))
              (fst (datetime_now (world s)))
              [mkTransferEvent key (fst (datetime_now w1)) source_bucket
                 destination_bucket "Deletion Error"]] /\
       calls s' = calls s ++ [CallGetFile source_bucket key])
  /\
  (forall (items : list (string * json)) (key : json) (s : State W) (n : Z)
          (e : COSError) (w1 w2 : W),
     dict_get items "bucket" = Some (JStr source_bucket) ->
     dict_get items "key" = Some key ->
     event_stats s !! "cos" = Some n ->
     get_file source_bucket key (snd (datetime_now (world s))) = (inr tt, w1) ->
     put_file destination_bucket key w1 = (inl e, w2) ->
     exists (r : result (response file_info)) (s' : State W),
       handle_cos_event source_bucket destination_bucket
                        (Some (JObj items)) s = (r, s') /\
       r = Return (Text "OK") /\
       event_history s' =
         event_history s ++
           [mkHistoryEvent ("cos-" ++ str (n + 1))
              (fst (datetime_now (world s)))
              [mkTransferEvent key (fst (datetime_now w2)) source_bucket
                 destination_bucket "Deletion Error"]] /\
       calls s' =
         calls s ++
           [CallGetFile source_bucket key;
            CallPutFile destination_bucket key]).
Proof.
  split.
  - intros items key s n e w1 Hb Hk Hn G.
    pose proof (guarded_do_fetch_fails
                  (mkFileHandler source_bucket destination_bucket key)
                  (cos_started s n) e w1 G) as Hrun.
    rewrite (handle_cos_event_accepted_run source_bucket destination_bucket
               items key s n _ _ Hb Hk Hn Hrun eq_refl).
    eexists _, _. split; [reflexivity |].
    cbn [event_history calls world]. unfold cos_started.
    cbn [event_history calls world]. auto.
  - intros items key s n e w1 w2 Hb Hk Hn G P.
    pose proof (guarded_do_store_fails
                  (mkFileHandler source_bucket destination_bucket key)
                  (cos_started s n) e w1 w2 G P) as Hrun.
    rewrite (handle_cos_event_accepted_run source_bucket destination_bucket
               items key s n _ _ Hb Hk Hn Hrun eq_refl).
    eexists _, _. split; [reflexivity |].
    cbn [event_history calls world]. unfold cos_started.
    cbn [event_history calls world]. auto.
Qed.
End Specification.

(** * The statements at work on the in-memory service *)

(** C1 at work: the object ["zz"] does not exist, so its download fails;
      and with a sealed destination the upload of ["a"] fails. *)
Lemma storage_failure_before_delete_is_swallowed_witness :
  (exists e w1,
     get_file "in" (JStr "zz") (snd (datetime_now MemCOS.demo)) = (inl e, w1) /\
     exists r s',
       handle_cos_event "in" "out" (notification "in" "zz") MemCOS.boot
         = (r, s') /\
       r = Return (Text "OK") /\
       event_history s' =
         [mkHistoryEvent "cos-1" 1000
            [mkTransferEvent (JStr "zz") 1001 "in" "out" "Deletion Error"]] /\
       calls s' = [CallGetFile "in" (JStr "zz")])
  /\
  (exists e w1 w2,
     get_file "in" (JStr "a") (snd (datetime_now MemCOS.demo_sealed))
       = (inr tt, w1) /\
     put_file "out" (JStr "a") w1 = (inl e, w2) /\
     exists r s',
       handle_cos_event "in" "out" (notification "in" "a") MemCOS.boot_sealed
         = (r, s') /\
       r = Return (Text "OK") /\
       event_history s' =
         [mkHistoryEvent "cos-1" 1000
            [mkTransferEvent (JStr "a") 1001 "in" "out" "Deletion Error"]] /\
       calls s' = [CallGetFile "in" (JStr "a"); CallPutFile "out" (JStr "a")]).
Proof.
  split.
  - exists (mkCOSError "NoSuchKey"), (snd (datetime_now MemCOS.demo)).
    split; [reflexivity |].
    exact (proj1 (storage_failure_before_delete_is_swallowed "in" "out")
             [("bucket", JStr "in"); ("key", JStr "zz")] (JStr "zz")
             MemCOS.boot 0 (mkCOSError "NoSuchKey")
             (snd (datetime_now MemCOS.demo))
             eq_refl eq_refl eq_refl eq_refl).
  - exists (mkCOSError "NoSuchFile"),
      (snd (get_file "in" (JStr "a") (snd (datetime_now MemCOS.demo_sealed)))),
      (snd (get_file "in" (JStr "a") (snd (datetime_now MemCOS.demo_sealed)))).
    split; [reflexivity |]. split; [reflexivity |].
    exact (proj2 (storage_failure_before_delete_is_swallowed "in" "out")
             [("bucket", JStr "in"); ("key", JStr "a")] (JStr "a")
             MemCOS.boot_sealed 0 (mkCOSError "NoSuchFile") _ _
             eq_refl eq_refl eq_refl eq_refl eq_refl).
Defined.

(** C2 at work: ["b"] is downloaded and uploaded but cannot be deleted, in
    a notification and as the second of the three keys of a sweep. *)
Lemma delete_failure_recorded_not_escalated_witness :
  (exists e w1 w2 w3,
     get_file "in" (JStr "b") (snd (datetime_now MemCOS.demo)) = (inr tt, w1) /\
     put_file "out" (JStr "b") w1 = (inr tt, w2) /\
     delete_file "in" (JStr "b") w2 = (inl e, w3) /\
     exists r s',
       handle_cos_event "in" "out" (notification "in" "b") MemCOS.boot
         = (r, s') /\
       r = Return (Text "OK") /\ status_code r = 200 /\
       event_history s' =
         [mkHistoryEvent "cos-1" 1000
            [mkTransferEvent (JStr "b") 1001 "in" "out" "Deletion Error"]] /\
       calls s' =
         [CallGetFile "in" (JStr "b"); CallPutFile "out" (JStr "b");
          CallDeleteFile "in" (JStr "b")] /\
       world s' = snd (datetime_now w3))
  /\
  (exists done s1 e w1 w2 w3,
     reconcile "in" "out" ["a"] [] (cron_listed "in" MemCOS.boot 0)
       = (Return done, s1) /\
     get_file "in" (JStr "b") (world s1) = (inr tt, w1) /\
     put_file "out" (JStr "b") w1 = (inr tt, w2) /\
     delete_file "in" (JStr "b") w2 = (inl e, w3) /\
     exists r record s' later,
       handle_cron_event "in" "out" (Some (JObj [("tick", JInt 1)])) MemCOS.boot
         = (r, s') /\
       r = Return (Text "OK") /\ status_code r = 200 /\
       event_history s' = [record] /\
       he_objects record !! 1%nat =
         Some (mkTransferEvent (JStr "b") 1002 "in" "out" "Deletion Error") /\
       calls s' =
         calls s1 ++
           [CallGetFile "in" (JStr "b"); CallPutFile "out" (JStr "b");
            CallDeleteFile "in" (JStr "b")] ++ later /\
       sweep_calls "in" "out" ["c"] later).
Proof.
  split.
  - pose (w0 := snd (datetime_now MemCOS.demo)).
    pose (w1 := snd (get_file "in" (JStr "b") w0)).
    pose (w2 := snd (put_file "out" (JStr "b") w1)).
    pose (w3 := snd (delete_file "in" (JStr "b") w2)).
    exists (mkCOSError "AccessDenied"), w1, w2, w3.
    split; [reflexivity |]. split; [reflexivity |]. split; [reflexivity |].
    exact (proj1 (delete_failure_recorded_not_escalated "in" "out")
             [("bucket", JStr "in"); ("key", JStr "b")] (JStr "b")
             MemCOS.boot 0 (mkCOSError "AccessDenied") w1 w2 w3
             eq_refl eq_refl eq_refl eq_refl eq_refl eq_refl).
  - pose (run := reconcile "in" "out" ["a"] [] (cron_listed "in" MemCOS.boot 0)).
    pose (done := match fst run with Return d => d | Raise _ => [] end).
    pose (s1 := snd run).
    pose (w1 := snd (get_file "in" (JStr "b") (world s1))).
    pose (w2 := snd (put_file "out" (JStr "b") w1)).
    pose (w3 := snd (delete_file "in" (JStr "b") w2)).
    exists done, s1, (mkCOSError "AccessDenied"), w1, w2, w3.
    split; [reflexivity |]. split; [reflexivity |].
    split; [reflexivity |]. split; [reflexivity |].
    exact (proj2 (delete_failure_recorded_not_escalated "in" "out")
             (Some (JObj [("tick", JInt 1)])) MemCOS.boot 0
             [("a", tt); ("b", tt); ("c", tt)] ["a"] ["c"] "b"
             done s1 (mkCOSError "AccessDenied") w1 w2 w3
             eq_refl eq_refl eq_refl eq_refl eq_refl eq_refl eq_refl eq_refl).
Defined.

(** C7 at work: a notification for ["a"] in the configured bucket. *)
Lemma accepted_notification_appends_one_record_witness :
  dict_get [("bucket", JStr "in"); ("key", JStr "a")] "bucket"
    = Some (JStr "in") /\
  dict_get [("bucket", JStr "in"); ("key", JStr "a")] "key"
    = Some (JStr "a") /\
  event_stats MemCOS.boot !! "cos" = Some 0 /\
  exists record o s',
    handle_cos_event "in" "out" (notification "in" "a") MemCOS.boot
      = (Return (Text "OK"), s') /\
    event_stats s' = <["cos" := 0 + 1]> (event_stats MemCOS.boot) /\
    event_history s' = event_history MemCOS.boot ++ [record] /\
    he_objects record = [o] /\
    te_key o = JStr "a".
Proof.
  split; [reflexivity |]. split; [reflexivity |]. split; [reflexivity |].
  apply (accepted_notification_appends_one_record "in" "out"
           [("bucket", JStr "in"); ("key", JStr "a")] (JStr "a")
           MemCOS.boot 0);
    reflexivity.
Defined.

(** C8 at work: a notification that declares the bucket ["elsewhere"]. *)
Lemma foreign_bucket_notification_rejected_witness :
  dict_get [("bucket", JStr "elsewhere"); ("key", JStr "a")] "bucket"
    = Some (JStr "elsewhere") /\
  py_ne_str (JStr "elsewhere") "in" = true /\
  event_stats MemCOS.boot !! "cos_error" = Some 0 /\
  exists r s',
    handle_cos_event "in" "out" (notification "elsewhere" "a") MemCOS.boot
      = (r, s') /\
    r = Raise (ExHTTP 400) /\ status_code r = 400 /\
    event_stats s' = <["cos_error" := 0 + 1]> (event_stats MemCOS.boot) /\
    event_history s' = event_history MemCOS.boot /\
    buckets s' = buckets MemCOS.boot /\
    calls s' = calls MemCOS.boot /\
    world s' = snd (datetime_now (world MemCOS.boot)).
Proof.
  split; [reflexivity |]. split; [reflexivity |]. split; [reflexivity |].
  apply (foreign_bucket_notification_rejected "in" "out"
           [("bucket", JStr "elsewhere"); ("key", JStr "a")] (JStr "elsewhere")
           MemCOS.boot 0);
    reflexivity.
Defined.

(** C6 at work: a sweep over the three keys of the demo bucket. *)
Lemma sweep_appends_one_record_for_all_keys_witness :
  truthy (get_json_silent (Some (JObj [("tick", JInt 1)]))) = true /\
  event_stats MemCOS.boot !! "cron" = Some 0 /\
  fst (get_files_info "in" (snd (datetime_now (world MemCOS.boot))))
    = inr [("a", tt); ("b", tt); ("c", tt)] /\
  (exists record s' cs,
     handle_cron_event "in" "out" (Some (JObj [("tick", JInt 1)])) MemCOS.boot
       = (Return (Text "OK"), s') /\
     event_history s' = event_history MemCOS.boot ++ [record] /\
     length (he_objects record) = 3%nat /\
     map te_key (he_objects record) = [JStr "a"; JStr "b"; JStr "c"] /\
     Forall (fun o => te_status o = "OK" \/ te_status o = "Deletion Error")
            (he_objects record) /\
     calls s' = calls MemCOS.boot ++ CallGetFilesInfo "in" :: cs /\
     downloads cs = [JStr "a"; JStr "b"; JStr "c"]).
Proof.
  split; [reflexivity |]. split; [reflexivity |]. split; [reflexivity |].
  exact (proj1 (sweep_appends_one_record_for_all_keys "in" "out"
                  (Some (JObj [("tick", JInt 1)])) MemCOS.boot 0
                  [("a", tt); ("b", tt); ("c", tt)]
                  eq_refl eq_refl eq_refl)).
Defined.

(** C3 as stated fails: a notification whose payload is an object without
    a ['bucket'] entry raises [KeyError] before any counter is touched. *)
Lemma stray_notification_touches_no_counter :
  is_notification (POST_events_cos stray_payload) = true /\
  fst (handle_cos_event (file_info := unit) "in" "out" stray_payload MemCOS.boot)
    = Raise (ExKeyError "bucket") /\
  event_stats (serve "in" "out" MemCOS.boot (POST_events_cos stray_payload))
    = event_stats MemCOS.boot /\
  ~ (exists k,
       increments k (event_stats MemCOS.boot)
         (event_stats
            (serve "in" "out" MemCOS.boot (POST_events_cos stray_payload)))).
Proof.
  split; [reflexivity |]. split; [reflexivity |].
  assert (E : event_stats
                (serve "in" "out" MemCOS.boot (POST_events_cos stray_payload))
              = event_stats MemCOS.boot) by reflexivity.
  split; [exact E |].
  rewrite E. intros [k Hk]. exact (increments_irrefl k _ Hk).
Qed.

(** C3, amended, at work: an empty object sent to the sweep and a
    notification for a foreign bucket each raise one error counter. *)
Lemma screened_trigger_increments_one_counter_witness :
  counters_present (event_stats MemCOS.boot) /\
  is_notification (POST_events_cos (notification "elsewhere" "a"))
    || is_reconciliation (POST_events_cos (notification "elsewhere" "a")) = true /\
  screened_request (POST_events_cos (notification "elsewhere" "a")) = true /\
  exists k n,
    In k counter_keys /\
    (is_notification (POST_events_cos (notification "elsewhere" "a")) = true ->
     k = "cos" \/ k = "cos_error") /\
    (is_reconciliation (POST_events_cos (notification "elsewhere" "a")) = true ->
     k = "cron" \/ k = "cron_error") /\
    event_stats MemCOS.boot !! k = Some n /\
    event_stats
      (serve "in" "out" MemCOS.boot
             (POST_events_cos (notification "elsewhere" "a"))) !! k
      = Some (n + 1) /\
    (forall k', k' <> k ->
       event_stats
         (serve "in" "out" MemCOS.boot
                (POST_events_cos (notification "elsewhere" "a"))) !! k'
       = event_stats MemCOS.boot !! k').
Proof.
  assert (Hp : counters_present (event_stats MemCOS.boot))
    by (repeat constructor; exists 0; reflexivity).
  split; [exact Hp |]. split; [reflexivity |]. split; [reflexivity |].
  exact (screened_trigger_increments_one_counter "in" "out"
           (POST_events_cos (notification "elsewhere" "a")) MemCOS.boot
           Hp eq_refl eq_refl).
Defined.

(** C5 as stated fails: after one notification whose payload is an object
    without a ['bucket'] entry, both counters are still zero. *)
Lemma stray_notification_not_counted :
  notification_total
    (serve_all "in" "out" [POST_events_cos stray_payload]
               (create_server "in" "out" MemCOS.demo))
  <> Z.of_nat (notifications_received [POST_events_cos stray_payload]).
Proof. vm_compute. discriminate. Qed.

(** C5, amended, at work. *)
Lemma screened_notifications_all_counted_witness :
  forallb screened_request demo_requests = true /\
  notification_total
    (serve_all "in" "out" demo_requests (create_server "in" "out" MemCOS.demo))
  = Z.of_nat (notifications_received demo_requests).
Proof.
  split; [reflexivity |].
  apply (screened_notifications_all_counted "in" "out" demo_requests MemCOS.demo).
  reflexivity.
Defined.

(** ** Further runs *)

(** The sweep of the demo bucket, in full: ["b"] stays behind. *)
Example sweep_of_demo_bucket :
  map (fun o => (te_key o, te_status o))
      (concat (map he_objects
                 (event_history
                    (serve "in" "out" MemCOS.boot
                           (POST_events_cron (Some (JObj [("tick", JInt 1)])))))))
  = [(JStr "a", "OK"); (JStr "b", "Deletion Error"); (JStr "c", "OK")]
  /\ MemCOS.mem_objects
       (world (serve "in" "out" MemCOS.boot
                     (POST_events_cron (Some (JObj [("tick", JInt 1)])))))
     = [("in", "b"); ("out", "a"); ("out", "b"); ("out", "c")].
Proof. split; reflexivity. Qed.

(** A payload that is a non-empty array cannot be indexed by ['bucket']. *)
Example array_payload_raises_TypeError :
  fst (handle_cos_event (file_info := unit) "in" "out"
         (Some (JArr [JInt 1])) MemCOS.boot)
  = Raise ExTypeError.
Proof. reflexivity. Qed.

(** A notification without ['key'] is counted under [cos] and then raises. *)
Example keyless_payload_raises_KeyError :
  handle_cos_event (file_info := unit) "in" "out"
    (Some (JObj [("bucket", JStr "in")])) MemCOS.boot
  = (Raise (ExKeyError "key"), cos_started MemCOS.boot 0).
Proof. reflexivity. Qed.

(** The counters after the requests of [demo_requests]. *)
Example stats_after_demo_requests :
  map (fun k => counter k (serve_all "in" "out" demo_requests MemCOS.boot))
      counter_keys
  = [1; 0; 1; 2].
Proof. reflexivity. Qed.

(** [GET /files] after a sweep: one row per key, one column per bucket
    that holds it. *)
Example files_after_sweep :
  match fst (get_files
               (serve "in" "out" MemCOS.boot
                      (POST_events_cron (Some (JObj [("tick", JInt 1)]))))) with
  | Return (FilesPage file_names files bs) =>
      file_names = ["a"; "b"; "c"] /\
      map (fun f => (f, merge_sort str_le
                          (map fst (map_to_list (match files !! f with
                                                 | Some row => row
                                                 | None => ∅
                                                 end)))))
          file_names
      = [("a", ["out"]); ("b", ["in"; "out"]); ("c", ["out"])] /\
      bs = ["in"; "out"]
  | _ => False
  end.
Proof. vm_compute. repeat split; reflexivity. Qed.

(** * Further properties of the code *)

Section Further.
Context {W file_info : Type} `{Env : Environment W file_info}.
Variables (source_bucket destination_bucket : string).


(** X2: the transfer event a notification records has status ['OK'] exactly
    when the download, the upload and the delete of the key all succeeded,
    and ['Deletion Error'] otherwise. *)
Theorem notification_status_ok_iff
        (items : list (string * json)) (key : json) (s : State W) (n : Z) :
  dict_get items "bucket" = Some (JStr source_bucket) ->
  dict_get items "key" = Some key ->
  event_stats s !! "cos" = Some n ->
  exists (status : string) (t : timestamp) (s' : State W),
    handle_cos_event source_bucket destination_bucket (Some (JObj items)) s
      = (Return (Text (file_info := file_info) "OK"), s') /\
    event_history s' =
      event_history s ++
        [mkHistoryEvent (cos_id (n + 1)) (fst (datetime_now (world s)))
           [mkTransferEvent key t source_bucket destination_bucket status]] /\
    (status = "OK" \/ status = "Deletion Error") /\
    (status = "OK" <->
     fst (get_file source_bucket key (snd (datetime_now (world s)))) = inr tt /\
     fst (put_file destination_bucket key
            (snd (get_file source_bucket key (snd (datetime_now (world s))))))
       = inr tt /\
     fst (delete_file source_bucket key
            (snd (put_file destination_bucket key
                    (snd (get_file source_bucket key
                            (snd (datetime_now (world s))))))))
       = inr tt).
Proof.
  intros Hb Hk Hn.
  set (w0 := snd (datetime_now (world s))).
  destruct (get_file source_bucket key w0) as [g w1] eqn:G.
  cbn [fst snd].
  destruct g as [e | []].
  { pose proof (guarded_do_fetch_fails
                  (mkFileHandler source_bucket destination_bucket key)
                  (cos_started s n) e w1 G) as Hrun.
    rewrite (handle_cos_event_accepted_run source_bucket destination_bucket
               items key s n _ _ Hb Hk Hn Hrun eq_refl).
    eexists _, _, _. split; [reflexivity |]. cbn [event_history].
    split; [reflexivity |]. split; [auto |].
    split; [discriminate | intros [? _]; discriminate]. }
  destruct (put_file destination_bucket key w1) as [p w2] eqn:P.
  cbn [fst snd].
  destruct p as [e | []].
  { pose proof (guarded_do_store_fails
                  (mkFileHandler source_bucket destination_bucket key)
                  (cos_started s n) e w1 w2 G P) as Hrun.
    rewrite (handle_cos_event_accepted_run source_bucket destination_bucket
               items key s n _ _ Hb Hk Hn Hrun eq_refl).
    eexists _, _, _. split; [reflexivity |]. cbn [event_history].
    split; [reflexivity |]. split; [auto |].
    split; [discriminate | intros (_ & ? & _); discriminate]. }
  destruct (delete_file source_bucket key w2) as [d w3] eqn:D.
  cbn [fst snd].
  destruct d as [e | []].
  { pose proof (guarded_do_delete_fails
                  (mkFileHandler source_bucket destination_bucket key)
                  (cos_started s n) e w1 w2 w3 G P D) as Hrun.
    rewrite (handle_cos_event_accepted_run source_bucket destination_bucket
               items key s n _ _ Hb Hk Hn Hrun eq_refl).
    eexists _, _, _. split; [reflexivity |]. cbn [event_history].
    split; [reflexivity |]. split; [auto |].
    split; [discriminate | intros (_ & _ & ?); discriminate]. }
  pose proof (guarded_do_ok
                (mkFileHandler source_bucket destination_bucket key)
                (cos_started s n) w1 w2 w3 G P D) as Hrun.
  rewrite (handle_cos_event_accepted_run source_bucket destination_bucket
             items key s n _ _ Hb Hk Hn Hrun eq_refl).
  eexists _, _, _. split; [reflexivity |]. cbn [event_history].
  split; [reflexivity |]. split; [auto |]. split; auto.
Qed.

(** X3: a notification that names the configured bucket but has no ['key']
    entry has already been counted under [cos] when the lookup raises
    [KeyError]: the request ends in status 500, with no history record and
    no client call. *)
Theorem keyless_notification_counted_then_fails
        (items : list (string * json)) (s : State W) (n : Z) :
  dict_get items "bucket" = Some (JStr source_bucket) ->
  dict_get items "key" = None ->
  event_stats s !! "cos" = Some n ->
  exists (r : result (response file_info)) (s' : State W),
    handle_cos_event source_bucket destination_bucket (Some (JObj items)) s
      = (r, s') /\
    r = Raise (ExKeyError "key") /\ status_code r = 500 /\
    event_stats s' = <["cos" := n + 1]> (event_stats s) /\
    event_history s' = event_history s /\
    buckets s' = buckets s /\
    calls s' = calls s.
Proof.
  intros Hb Hk Hn.
  rewrite (handle_cos_event_no_key source_bucket destination_bucket
             items s n Hb Hk Hn).
  eexists _, _. split; [reflexivity |]. cbn. auto 10.
Qed.

(** X4: a body that does not parse, or parses to a value Python takes for
    false, is refused by both POST routes with status 400 and counted under
    the route's error counter; no history record is appended and the
    storage client is not called. *)
Theorem falsy_body_rejected (body : option json) (s : State W) (n m : Z) :
  truthy (get_json_silent body) = false ->
  event_stats s !! "cos_error" = Some n ->
  event_stats s !! "cron_error" = Some m ->
  (exists (r : result (response file_info)) (s' : State W),
     handle_cos_event source_bucket destination_bucket body s = (r, s') /\
     r = Raise (ExHTTP 400) /\ status_code r = 400 /\
     event_stats s' = <["cos_error" := n + 1]> (event_stats s) /\
     event_history s' = event_history s /\
     buckets s' = buckets s /\
     calls s' = calls s)
  /\
  (exists (r : result (response file_info)) (s' : State W),
     handle_cron_event source_bucket destination_bucket body s = (r, s') /\
     r = Raise (ExHTTP 400) /\ status_code r = 400 /\
     event_stats s' = <["cron_error" := m + 1]> (event_stats s) /\
     event_history s' = event_history s /\
     buckets s' = buckets s /\
     calls s' = calls s /\
     world s' = world s).
Proof.
  intros Hf Hn Hm. split.
  - rewrite (handle_cos_event_falsy source_bucket destination_bucket
               body s n Hf Hn).
    eexists _, _. split; [reflexivity |]. cbn. auto 10.
  - rewrite (handle_cron_event_falsy source_bucket destination_bucket
               body s m Hf Hm).
    eexists _, _. split; [reflexivity |]. cbn. auto 10.
Qed.

(** X5: a notification whose payload is true for Python but is not an
    object with a ['bucket'] entry raises [TypeError] or [KeyError] at
    [event['bucket']]: the request ends in status 500 with every counter,
    the history and the bucket list as they were and no client call. *)
Theorem notification_without_bucket_fails (body : option json) (s : State W) :
  truthy (get_json_silent body) = true ->
  (forall items, get_json_silent body = JObj items ->
                 dict_get items "bucket" = None) ->
  exists (r : result (response file_info)) (s' : State W),
    handle_cos_event source_bucket destination_bucket body s = (r, s') /\
    (r = Raise (ExKeyError "bucket") \/ r = Raise ExTypeError) /\
    status_code r = 500 /\
    event_stats s' = event_stats s /\
    event_history s' = event_history s /\
    buckets s' = buckets s /\
    calls s' = calls s.
Proof.
  intros Ht Hno.
  destruct (handle_cos_event_no_bucket source_bucket destination_bucket
              body s Ht Hno) as (e & -> & He).
  eexists _, _. split; [reflexivity |]. cbn [event_stats event_history buckets calls].
  destruct He as [-> | ->]; cbn; auto 10.
Qed.

(** X6: when the listing of the source bucket fails, the sweep has already
    been counted under [cron]; the [COSError] leaves the handler, so the
    request ends in status 500, with no history record and no migration:
    the listing is the only client call. *)
Theorem sweep_listing_failure_propagates
        (body : option json) (s : State W) (n : Z) (e : COSError) :
  truthy (get_json_silent body) = true ->
  event_stats s !! "cron" = Some n ->
  fst (get_files_info source_bucket (snd (datetime_now (world s)))) = inl e ->
  exists (r : result (response file_info)) (s' : State W),
    handle_cron_event source_bucket destination_bucket body s = (r, s') /\
    r = Raise (ExCOS e) /\ status_code r = 500 /\
    event_stats s' = <["cron" := n + 1]> (event_stats s) /\
    event_history s' = event_history s /\
    buckets s' = buckets s /\
    calls s' = calls s ++ [CallGetFilesInfo source_bucket].
Proof.
  intros Ht Hn Hl.
  rewrite (handle_cron_event_listing_fails source_bucket destination_bucket
             body s n e Ht Hn Hl).
  eexists _, _. split; [reflexivity |]. unfold cron_listed. cbn. auto 10.
Qed.

(** *** What one request does to the counters and the history, exactly *)

Lemma serve_effect_exact (r : request) (s : State W) :
  counters_present (event_stats s) ->
  (counter_raised source_bucket r = None /\
   event_stats (serve source_bucket destination_bucket s r) = event_stats s /\
   event_history (serve source_bucket destination_bucket s r)
     = event_history s)
  \/
  (exists k n,
     counter_raised source_bucket r = Some k /\
     event_stats s !! k = Some n /\
     event_stats (serve source_bucket destination_bucket s r)
       = <[k := n + 1]> (event_stats s) /\
     (event_history (serve source_bucket destination_bucket s r)
        = event_history s
      \/
      exists h,
        event_history (serve source_bucket destination_bucket s r)
          = event_history s ++ [h] /\
        (k = "cos" /\ he_id h = cos_id (n + 1) \/
         k = "cron" /\ he_id h = cron_id (n + 1)))).
Proof.
  intros Hp.
  destruct (counters_present_lookup _ "cos" Hp) as [nc Hnc]; [cbn; auto |].
  destruct (counters_present_lookup _ "cos_error" Hp) as [nce Hnce];
    [cbn; auto |].
  destruct (counters_present_lookup _ "cron" Hp) as [nr Hnr]; [cbn; auto |].
  destruct (counters_present_lookup _ "cron_error" Hp) as [nre Hnre];
    [cbn; auto |].
  destruct r as [| | | body | body]; unfold serve, dispatch.
  - left. destruct (get_files_same_ledger (file_info := file_info) s)
      as (E & H & _). auto.
  - left. cbn. auto.
  - left. cbn. auto.
  - cbn [counter_raised].
    destruct (truthy (get_json_silent body)) eqn:Ht.
    2: { right. exists "cos_error", nce.
         rewrite (handle_cos_event_falsy source_bucket destination_bucket
                    body s nce Ht Hnce).
         cbn. auto 10. }
    assert (Hcrash :
      (forall items, get_json_silent body = JObj items ->
                     dict_get items "bucket" = None) ->
      event_stats
        (snd (handle_cos_event source_bucket destination_bucket body s))
        = event_stats s /\
      event_history
        (snd (handle_cos_event source_bucket destination_bucket body s))
        = event_history s).
    { intros Hno.
      destruct (handle_cos_event_no_bucket source_bucket destination_bucket
                  body s Ht Hno) as (e & -> & _).
      cbn. auto. }
    destruct (get_json_silent body) as [| | | | | |items] eqn:E;
      try (left; split; [reflexivity |]; apply Hcrash; intros ? ?;
           discriminate).
    destruct (dict_get items "bucket") as [bucket |] eqn:Hb.
    2: { left. split; [reflexivity |]. apply Hcrash.
         intros items' [= <-]. exact Hb. }
    assert (Hbody : body = Some (JObj items))
      by (destruct body; cbn in E; [congruence | discriminate]).
    subst body. right.
    destruct (py_ne_str bucket source_bucket) eqn:Hne.
    { exists "cos_error", nce.
      rewrite (handle_cos_event_wrong_bucket source_bucket destination_bucket
                 items bucket s nce Hb Hne Hnce).
      cbn. auto 10. }
    apply py_ne_str_false in Hne. subst bucket.
    exists "cos", nc. split; [reflexivity |]. split; [exact Hnc |].
    destruct (dict_get items "key") as [key |] eqn:Hk.
    + destruct (handle_cos_event_accepted source_bucket destination_bucket
                  items key s nc Hb Hk Hnc)
        as (status & t & s' & k & -> & E' & H' & _).
      cbn [snd]. split; [exact E' |]. right.
      eexists. split; [exact H' |]. left. split; reflexivity.
    + rewrite (handle_cos_event_no_key source_bucket destination_bucket
                 items s nc Hb Hk Hnc).
      cbn. auto.
  - cbn [counter_raised]. right.
    destruct (truthy (get_json_silent body)) eqn:Ht.
    2: { exists "cron_error", nre.
         rewrite (handle_cron_event_falsy source_bucket destination_bucket
                    body s nre Ht Hnre).
         cbn. auto 10. }
    exists "cron", nr. split; [reflexivity |]. split; [exact Hnr |].
    destruct (fst (get_files_info source_bucket
                     (snd (datetime_now (world s))))) as [e | inv] eqn:Hl.
    { rewrite (handle_cron_event_listing_fails source_bucket destination_bucket
                 body s nr e Ht Hnr Hl).
      unfold cron_listed. cbn. auto. }
    destruct (reconcile_total source_bucket destination_bucket
                (map fst inv) [] (cron_listed source_bucket s nr))
      as (new & s2 & cs & Hrun & (E2 & H2 & B2 & C2) & _).
    rewrite (handle_cron_event_accepted_run source_bucket destination_bucket
               body s nr inv _ s2 Ht Hnr Hl Hrun).
    cbn [snd event_stats event_history]. rewrite E2, H2.
    unfold cron_listed. cbn [event_stats event_history].
    split; [reflexivity |]. right.
    eexists. split; [reflexivity |]. right. split; reflexivity.
Qed.

Lemma counter_insert (k k' : string) (n : Z) (s s' : State W) :
  event_stats s !! k = Some n ->
  event_stats s' = <[k := n + 1]> (event_stats s) ->
  counter k' s' = counter k' s + (if String.eqb k k' then 1 else 0).
Proof.
  intros Hk E. unfold counter. rewrite E.
  destruct (String.eqb_spec k k') as [<- | Hne].
  - rewrite lookup_insert_eq, Hk. reflexivity.
  - rewrite lookup_insert_ne by exact Hne. lia.
Qed.

Lemma serve_counter (k : string) (r : request) (s : State W) :
  counters_present (event_stats s) ->
  counter k (serve source_bucket destination_bucket s r) =
    counter k s + (if raises_counter source_bucket k r then 1 else 0).
Proof.
  intros Hp. unfold raises_counter.
  destruct (serve_effect_exact r s Hp)
    as [(-> & E & _) | (k0 & n & -> & Hk & E & _)].
  - unfold counter. rewrite E. lia.
  - apply (counter_insert k0 k n s _ Hk E).
Qed.

Lemma serve_all_counter (k : string) (rs : list request) :
  forall s : State W,
    ledger_ok source_bucket destination_bucket s ->
    counter k (serve_all source_bucket destination_bucket rs s) =
      counter k s +
      Z.of_nat (length (List.filter (raises_counter source_bucket k) rs)).
Proof.
  induction rs as [| r rs IH]; intros s Hok.
  - cbn. lia.
  - change (serve_all source_bucket destination_bucket (r :: rs) s)
      with (serve_all source_bucket destination_bucket rs
              (serve source_bucket destination_bucket s r)).
    rewrite IH by (apply serve_ok, Hok).
    rewrite serve_counter by apply Hok.
    cbn [List.filter].
    destruct (raises_counter source_bucket k r); cbn [length]; lia.
Qed.

Lemma counter_create_server (k : string) (w : W) :
  counter k (create_server source_bucket destination_bucket w) = 0.
Proof.
  unfold counter, create_server. cbn [event_stats].
  rewrite !lookup_insert, lookup_empty.
  repeat case_decide; reflexivity.
Qed.

(** X7: at every point of the process lifetime each counter is the number
    of requests received so far that reached its update: [cos] counts the
    notifications whose payload is an object naming the configured bucket,
    [cos_error] those whose payload is false for Python or names another
    bucket, [cron] the sweeps whose payload is true for Python and
    [cron_error] the other sweeps; nothing else is ever counted. *)
Theorem counters_count_requests (k : string) (rs : list request) (w : W) :
  counter k
    (serve_all source_bucket destination_bucket rs
               (create_server source_bucket destination_bucket w))
  = Z.of_nat (length (List.filter (raises_counter source_bucket k) rs)).
Proof.
  rewrite serve_all_counter by apply create_server_ok.
  rewrite counter_create_server. lia.
Qed.

(** *** Identifiers of history records *)








(** *** The history only grows *)

Lemma serve_history_prefix (r : request) (s : State W) :
  counters_present (event_stats s) ->
  event_history s `prefix_of`
    event_history (serve source_bucket destination_bucket s r).
Proof.
  intros Hp.
  destruct (serve_effect_exact r s Hp)
    as [(_ & _ & ->) | (k & n & _ & _ & _ & [-> | (h & -> & _)])];
    try reflexivity.
  apply prefix_app_r. reflexivity.
Qed.

Lemma serve_all_history_prefix (rs : list request) :
  forall s : State W,
    ledger_ok source_bucket destination_bucket s ->
    event_history s `prefix_of`
      event_history (serve_all source_bucket destination_bucket rs s).
Proof.
  induction rs as [| r rs IH]; intros s Hok; [reflexivity |].
  change (serve_all source_bucket destination_bucket (r :: rs) s)
    with (serve_all source_bucket destination_bucket rs
            (serve source_bucket destination_bucket s r)).
  etransitivity; [apply serve_history_prefix, Hok |].
  apply IH, serve_ok, Hok.
Qed.

(** X9: the history is append-only and the counters never go down: what
    the history held after some requests is still there, in place, after
    any further requests, and each counter is at least what it was. *)
Theorem history_append_only_counters_monotone
        (rs1 rs2 : list request) (w : W) (k : string) :
  event_history
    (serve_all source_bucket destination_bucket rs1
       (create_server source_bucket destination_bucket w))
  `prefix_of`
  event_history
    (serve_all source_bucket destination_bucket (rs1 ++ rs2)
       (create_server source_bucket destination_bucket w))
  /\
  counter k
    (serve_all source_bucket destination_bucket rs1
       (create_server source_bucket destination_bucket w))
  <= counter k
       (serve_all source_bucket destination_bucket (rs1 ++ rs2)
          (create_server source_bucket destination_bucket w)).
Proof.
  assert (E : serve_all source_bucket destination_bucket (rs1 ++ rs2)
                (create_server source_bucket destination_bucket w)
              = serve_all source_bucket destination_bucket rs2
                  (serve_all source_bucket destination_bucket rs1
                     (create_server source_bucket destination_bucket w)))
    by apply fold_left_app.
  rewrite E.
  assert (Hok : ledger_ok source_bucket destination_bucket
                  (serve_all source_bucket destination_bucket rs1
                     (create_server source_bucket destination_bucket w)))
    by apply serve_all_ok, create_server_ok.
  split; [apply serve_all_history_prefix, Hok |].
  rewrite (serve_all_counter k rs2 _ Hok). lia.
Qed.

(** *** [GET /files] *)



Lemma record_file_entry (b : string)
      (file_inventory : gmap string (gmap string file_info))
      (f0 : string) (i0 : file_info) (f b' : string) :
  inventory_entry (record_file b file_inventory (f0, i0)) f b' =
    if decide (f = f0 /\ b' = b) then Some i0
    else inventory_entry file_inventory f b'.
Proof.
  unfold inventory_entry, record_file.
  destruct (decide (f = f0)) as [-> | Hf].
  - rewrite lookup_insert_eq.
    destruct (decide (b' = b)) as [-> | Hb].
    + rewrite lookup_insert_eq. rewrite decide_True by auto. reflexivity.
    + rewrite lookup_insert_ne by congruence.
      rewrite decide_False by (intros [_ ?]; contradiction).
      destruct (file_inventory !! f0); [reflexivity | apply lookup_empty].
  - rewrite lookup_insert_ne by congruence.
    rewrite decide_False by (intros [? _]; contradiction). reflexivity.
Qed.

Lemma record_files_entry (b : string) (items : list (string * file_info)) :
  forall (file_inventory : gmap string (gmap string file_info)) (f b' : string),
    inventory_entry (fold_left (record_file b) items file_inventory) f b' =
      if decide (b' = b) then
        match dict_of items !! f with
        | Some i => Some i
        | None => inventory_entry file_inventory f b'
        end
      else inventory_entry file_inventory f b'.
Proof.
  induction items as [| [f0 i0] items IH] using rev_ind;
    intros file_inventory f b'.
  - cbn. unfold dict_of. cbn. rewrite lookup_empty.
    destruct (decide (b' = b)); reflexivity.
  - rewrite fold_left_app. cbn [fold_left].
    rewrite record_file_entry, IH.
    unfold dict_of. rewrite reverse_snoc. cbn [list_to_map foldr].
    fold (dict_of items).
    destruct (decide (b' = b)) as [-> | Hb].
    + destruct (decide (f = f0)) as [-> | Hf].
      * rewrite decide_True by auto. cbn. rewrite lookup_insert_eq. reflexivity.
      * rewrite decide_False by (intros [? _]; contradiction).
        cbn. rewrite lookup_insert_ne by congruence. reflexivity.
    + rewrite decide_False by (intros [_ ?]; contradiction). reflexivity.
Qed.

Lemma record_file_keys (b : string)
      (file_inventory : gmap string (gmap string file_info))
      (f0 : string) (i0 : file_info) (f : string) :
  is_Some (record_file b file_inventory (f0, i0) !! f) <->
  f = f0 \/ is_Some (file_inventory !! f).
Proof.
  unfold record_file. rewrite lookup_insert_is_Some.
  split; intros [? | ?]; auto.
  - destruct H; auto.
  - destruct (decide (f0 = f)); auto.
Qed.

Lemma record_files_keys (b : string) (items : list (string * file_info)) :
  forall (file_inventory : gmap string (gmap string file_info)) (f : string),
    is_Some (fold_left (record_file b) items file_inventory !! f) <->
    In f (map fst items) \/ is_Some (file_inventory !! f).
Proof.
  induction items as [| [f0 i0] items IH]; intros file_inventory f.
  - cbn. tauto.
  - cbn [fold_left map fst In]. rewrite IH, record_file_keys. intuition.
Qed.

Lemma str_le_total : Total str_le.
Proof. intros a b. unfold str_le. apply String.leb_total. Qed.

Lemma inventory_entry_empty (f b : string) :
  inventory_entry (∅ : gmap string (gmap string file_info)) f b = None.
Proof. unfold inventory_entry. rewrite lookup_empty. reflexivity. Qed.

Lemma sorted_keys (files : gmap string (gmap string file_info)) :
  Sorted str_le (merge_sort str_le (map fst (map_to_list files))) /\
  NoDup (merge_sort str_le (map fst (map_to_list files))) /\
  (forall f, In f (merge_sort str_le (map fst (map_to_list files))) <->
             is_Some (files !! f)).
Proof.
  split; [apply (@Sorted_merge_sort _ str_le _ str_le_total) |].
  split.
  - rewrite merge_sort_Permutation. apply NoDup_fst_map_to_list.
  - intros f. rewrite <- list_elem_of_In, merge_sort_Permutation.
    rewrite list_elem_of_fmap. split.
    + intros ([f' row] & -> & Hin). apply elem_of_map_to_list in Hin.
      cbn. eauto.
    + intros [row Hrow]. exists (f, row). split; [reflexivity |].
      apply elem_of_map_to_list. exact Hrow.
Qed.

(** X11: when the bucket list holds two different buckets and both
    listings succeed, the page of [GET /files] shows, for every file and
    each of the two buckets, the information the bucket's listing gives for
    the file, and nothing where the listing does not have the file; no
    other bucket is shown; and the file names are those of the two listings
    together, each once, in ascending order. *)
Theorem get_files_merges_listings
        (s : State W) (b1 b2 : string) (items1 items2 : list (string * file_info)) :
  buckets s = [b1; b2] ->
  b1 <> b2 ->
  fst (get_files_info b1 (world s)) = inr items1 ->
  fst (get_files_info b2 (snd (get_files_info b1 (world s)))) = inr items2 ->
  exists (file_names : list string)
         (files : gmap string (gmap string file_info)) (s' : State W),
    get_files s = (Return (FilesPage file_names files [b1; b2]), s') /\
    (forall f, inventory_entry files f b1 = dict_of items1 !! f) /\
    (forall f, inventory_entry files f b2 = dict_of items2 !! f) /\
    (forall f b, b <> b1 -> b <> b2 -> inventory_entry files f b = None) /\
    Sorted str_le file_names /\
    NoDup file_names /\
    (forall f, In f file_names <->
               In f (map fst items1) \/ In f (map fst items2)).
Proof.
  intros Hb Hne H1 H2.
  unfold get_files, bind, get_buckets. rewrite Hb.
  cbn [inventory]. unfold bind, cos_get_files_info.
  rewrite cos_call_run, H1. cbn [world].
  rewrite cos_call_run. cbn [world]. rewrite H2. unfold ret.
  set (files := fold_left (record_file b2) items2
                  (fold_left (record_file b1) items1 ∅)).
  destruct (sorted_keys files) as (Hsorted & Hnodup & Hkeys).
  eexists _, files, _. split; [reflexivity |].
  repeat split; try assumption.
  - intros f. unfold files. rewrite !record_files_entry.
    rewrite decide_False by exact Hne. rewrite decide_True by reflexivity.
    rewrite inventory_entry_empty. destruct (dict_of items1 !! f); reflexivity.
  - intros f. unfold files. rewrite !record_files_entry.
    rewrite decide_True by reflexivity.
    rewrite decide_False by congruence.
    rewrite inventory_entry_empty. destruct (dict_of items2 !! f); reflexivity.
  - intros f b Hb1 Hb2. unfold files. rewrite !record_files_entry.
    rewrite !decide_False by assumption. apply inventory_entry_empty.
  - intros Hin. apply Hkeys in Hin. unfold files in Hin.
    rewrite !record_files_keys in Hin. rewrite lookup_empty in Hin.
    destruct Hin as [? | [? | [? ?]]]; [auto | auto | discriminate].
  - intros Hin. apply Hkeys. unfold files. rewrite !record_files_keys.
    tauto.
Qed.

(** *** The client calls of a sweep *)


End Further.


(** ** [start_server] *)

Lemma or_environ_settled (v : option string) (environ : gmap string string)
      (name : string) (a : Ascii.ascii) (rest : string) :
  or_environ v environ name = Some (String a rest) ->
  settled v environ name (String a rest).
Proof.
  unfold or_environ, settled. intros H. split; [discriminate |].
  destruct (str_truthy v); auto.
Qed.

(** X12: [start_server] gets as far as running the server exactly when the
    log level is one of the five names of [log_levels] and each of the six
    required settings is given, not empty, on the command line or in the
    environment. *)
Theorem start_server_serves_iff (o : cli_options) (environ : gmap string string) :
  (exists level client destination_bucket source_bucket port,
     start_server o environ
       = Serving level client destination_bucket source_bucket port)
  <->
  is_Some (log_levels !! opt_log_level o) /\
  Forall (fun '(option, name, _) =>
            str_truthy (or_environ (option o) environ name) = true)
         required_settings.
Proof.
  unfold start_server, required_settings.
  rewrite !Forall_cons, Forall_nil.
  destruct (log_levels !! opt_log_level o) as [level |].
  2: { split; [intros (? & ? & ? & ? & ? & ?); discriminate
              | intros [[? ?] _]; discriminate]. }
  destruct (or_environ (opt_cos_endpoint o) environ "COS_ENDPOINT")
    as [[| ? ?] |];
    try (split; [intros (? & ? & ? & ? & ? & ?); discriminate
                | cbn; intros (_ & ? & _); discriminate]).
  destruct (or_environ (opt_api_key o) environ "APIKEY") as [[| ? ?] |];
    try (split; [intros (? & ? & ? & ? & ? & ?); discriminate
                | cbn; intros (_ & _ & ? & _); discriminate]).
  destruct (or_environ (opt_destination_bucket o) environ "DESTINATION_BUCKET")
    as [[| ? ?] |];
    try (split; [intros (? & ? & ? & ? & ? & ?); discriminate
                | cbn; intros (_ & _ & _ & ? & _); discriminate]).
  destruct (or_environ (opt_source_bucket o) environ "SOURCE_BUCKET")
    as [[| ? ?] |];
    try (split; [intros (? & ? & ? & ? & ? & ?); discriminate
                | cbn; intros (_ & _ & _ & _ & ? & _); discriminate]).
  destruct (or_environ (opt_cos_instance_id o) environ "COS_INSTANCE_ID")
    as [[| ? ?] |];
    try (split; [intros (? & ? & ? & ? & ? & ?); discriminate
                | cbn; intros (_ & _ & _ & _ & _ & ? & _); discriminate]).
  destruct (or_environ (opt_iam_endpoint o) environ "IAM_ENDPOINT")
    as [[| ? ?] |];
    try (split; [intros (? & ? & ? & ? & ? & ?); discriminate
                | cbn; intros (_ & _ & _ & _ & _ & _ & ? & _); discriminate]).
  split; [intros _; cbn; eauto 10 | intros _; eauto 10].
Qed.

(** X13: when [start_server] runs the server, every setting it passes on
    is the command line option if that is given and not empty, and the
    environment variable otherwise, and none is empty; the application is
    created for the destination and source bucket so settled, and served
    on the port of the command line. *)
Theorem start_server_settings
        (o : cli_options) (environ : gmap string string)
        (level : logging_level) (client : cos_settings)
        (destination_bucket source_bucket : string) (port : Z) :
  start_server o environ
    = Serving level client destination_bucket source_bucket port ->
  log_levels !! opt_log_level o = Some level /\
  settled (opt_cos_endpoint o) environ "COS_ENDPOINT" (set_cos_endpoint client) /\
  settled (opt_api_key o) environ "APIKEY" (set_api_key client) /\
  settled (opt_destination_bucket o) environ "DESTINATION_BUCKET"
          destination_bucket /\
  settled (opt_source_bucket o) environ "SOURCE_BUCKET" source_bucket /\
  settled (opt_cos_instance_id o) environ "COS_INSTANCE_ID"
          (set_instance_id client) /\
  settled (opt_iam_endpoint o) environ "IAM_ENDPOINT" (set_iam_endpoint client) /\
  port = opt_port o.
Proof.
  unfold start_server.
  destruct (log_levels !! opt_log_level o) as [level' |]; [| discriminate].
  destruct (or_environ (opt_cos_endpoint o) environ "COS_ENDPOINT")
    as [[| ? ?] |] eqn:E1; try discriminate.
  destruct (or_environ (opt_api_key o) environ "APIKEY")
    as [[| ? ?] |] eqn:E2; try discriminate.
  destruct (or_environ (opt_destination_bucket o) environ "DESTINATION_BUCKET")
    as [[| ? ?] |] eqn:E3; try discriminate.
  destruct (or_environ (opt_source_bucket o) environ "SOURCE_BUCKET")
    as [[| ? ?] |] eqn:E4; try discriminate.
  destruct (or_environ (opt_cos_instance_id o) environ "COS_INSTANCE_ID")
    as [[| ? ?] |] eqn:E5; try discriminate.
  destruct (or_environ (opt_iam_endpoint o) environ "IAM_ENDPOINT")
    as [[| ? ?] |] eqn:E6; try discriminate.
  intros [= <- <- <- <- <-]. cbn [set_cos_endpoint set_api_key set_instance_id
                                   set_iam_endpoint].
  split; [reflexivity |].
  repeat (split; [eapply or_environ_settled; eassumption |]).
  reflexivity.
Qed.

(** X14: when [start_server] gives up with an error message and [-1], the
    log level was a known one, the message is that of a required setting
    that is given neither on the command line nor in the environment (or is
    empty there), and every setting checked before it was found. *)
Theorem start_server_refusal_names_first_missing
        (o : cli_options) (environ : gmap string string)
        (level : logging_level) (message : string) :
  start_server o environ = Refused level message ->
  log_levels !! opt_log_level o = Some level /\
  exists found option name rest,
    required_settings = found ++ (option, name, message) :: rest /\
    str_truthy (or_environ (option o) environ name) = false /\
    Forall (fun '(option', name', _) =>
              str_truthy (or_environ (option' o) environ name') = true)
           found.
Proof.
  unfold start_server.
  destruct (log_levels !! opt_log_level o) as [level' |]; [| discriminate].
  destruct (or_environ (opt_cos_endpoint o) environ "COS_ENDPOINT")
    as [[| ? ?] |] eqn:E1;
    try (intros [= <- <-]; split; [reflexivity |];
         exists (take 0 required_settings); eexists _, _, _;
         split; [reflexivity |]; rewrite E1; split; [reflexivity |];
         constructor).
  destruct (or_environ (opt_api_key o) environ "APIKEY")
    as [[| ? ?] |] eqn:E2;
    try (intros [= <- <-]; split; [reflexivity |];
         exists (take 1 required_settings); eexists _, _, _;
         split; [reflexivity |]; rewrite E2; split; [reflexivity |];
         repeat constructor; rewrite E1; reflexivity).
  destruct (or_environ (opt_destination_bucket o) environ "DESTINATION_BUCKET")
    as [[| ? ?] |] eqn:E3;
    try (intros [= <- <-]; split; [reflexivity |];
         exists (take 2 required_settings); eexists _, _, _;
         split; [reflexivity |]; rewrite E3; split; [reflexivity |];
         repeat constructor; first [rewrite E1 | rewrite E2]; reflexivity).
  destruct (or_environ (opt_source_bucket o) environ "SOURCE_BUCKET")
    as [[| ? ?] |] eqn:E4;
    try (intros [= <- <-]; split; [reflexivity |];
         exists (take 3 required_settings); eexists _, _, _;
         split; [reflexivity |]; rewrite E4; split; [reflexivity |];
         repeat constructor;
         first [rewrite E1 | rewrite E2 | rewrite E3]; reflexivity).
  destruct (or_environ (opt_cos_instance_id o) environ "COS_INSTANCE_ID")
    as [[| ? ?] |] eqn:E5;
    try (intros [= <- <-]; split; [reflexivity |];
         exists (take 4 required_settings); eexists _, _, _;
         split; [reflexivity |]; rewrite E5; split; [reflexivity |];
         repeat constructor;
         first [rewrite E1 | rewrite E2 | rewrite E3 | rewrite E4];
         reflexivity).
  destruct (or_environ (opt_iam_endpoint o) environ "IAM_ENDPOINT")
    as [[| ? ?] |] eqn:E6;
    try (intros [= <- <-]; split; [reflexivity |];
         exists (take 5 required_settings); eexists _, _, _;
         split; [reflexivity |]; rewrite E6; split; [reflexivity |];
         repeat constructor;
         first [rewrite E1 | rewrite E2 | rewrite E3 | rewrite E4 | rewrite E5];
         reflexivity).
  discriminate.
Qed.

(** ** The further properties at work *)

(** X2 at work: ["a"] can be moved, so its status is ['OK']. *)
Lemma notification_status_ok_iff_witness :
  dict_get [("bucket", JStr "in"); ("key", JStr "a")] "bucket"
    = Some (JStr "in") /\
  dict_get [("bucket", JStr "in"); ("key", JStr "a")] "key"
    = Some (JStr "a") /\
  event_stats MemCOS.boot !! "cos" = Some 0 /\
  exists status t s',
    handle_cos_event "in" "out" (notification "in" "a") MemCOS.boot
      = (Return (Text (file_info := unit) "OK"), s') /\
    event_history s' =
      event_history MemCOS.boot ++
        [mkHistoryEvent (cos_id (0 + 1))
           (fst (datetime_now (world MemCOS.boot)))
           [mkTransferEvent (JStr "a") t "in" "out" status]] /\
    (status = "OK" \/ status = "Deletion Error") /\
    (status = "OK" <->
     fst (get_file "in" (JStr "a") (snd (datetime_now (world MemCOS.boot))))
       = inr tt /\
     fst (put_file "out" (JStr "a")
            (snd (get_file "in" (JStr "a")
                    (snd (datetime_now (world MemCOS.boot))))))
       = inr tt /\
     fst (delete_file "in" (JStr "a")
            (snd (put_file "out" (JStr "a")
                    (snd (get_file "in" (JStr "a")
                            (snd (datetime_now (world MemCOS.boot))))))))
       = inr tt).
Proof.
  split; [reflexivity |]. split; [reflexivity |]. split; [reflexivity |].
  exact (notification_status_ok_iff "in" "out"
           [("bucket", JStr "in"); ("key", JStr "a")] (JStr "a")
           MemCOS.boot 0 eq_refl eq_refl eq_refl).
Defined.

(** X3 at work: a notification for the configured bucket without a key. *)
Lemma keyless_notification_counted_then_fails_witness :
  dict_get [("bucket", JStr "in")] "bucket" = Some (JStr "in") /\
  dict_get [("bucket", JStr "in")] "key" = None /\
  event_stats MemCOS.boot !! "cos" = Some 0 /\
  exists r s',
    handle_cos_event (file_info := unit) "in" "out"
      (Some (JObj [("bucket", JStr "in")])) MemCOS.boot = (r, s') /\
    r = Raise (ExKeyError "key") /\ status_code r = 500 /\
    event_stats s' = <["cos" := 0 + 1]> (event_stats MemCOS.boot) /\
    event_history s' = event_history MemCOS.boot /\
    buckets s' = buckets MemCOS.boot /\
    calls s' = calls MemCOS.boot.
Proof.
  split; [reflexivity |]. split; [reflexivity |]. split; [reflexivity |].
  exact (keyless_notification_counted_then_fails "in" "out"
           [("bucket", JStr "in")] MemCOS.boot 0 eq_refl eq_refl eq_refl).
Defined.

(** X4 at work: a body that does not parse. *)
Lemma falsy_body_rejected_witness :
  truthy (get_json_silent None) = false /\
  event_stats MemCOS.boot !! "cos_error" = Some 0 /\
  event_stats MemCOS.boot !! "cron_error" = Some 0 /\
  (exists r s',
     handle_cos_event (file_info := unit) "in" "out" None MemCOS.boot
       = (r, s') /\
     r = Raise (ExHTTP 400) /\ status_code r = 400 /\
     event_stats s' = <["cos_error" := 0 + 1]> (event_stats MemCOS.boot) /\
     event_history s' = event_history MemCOS.boot /\
     buckets s' = buckets MemCOS.boot /\
     calls s' = calls MemCOS.boot)
  /\
  (exists r s',
     handle_cron_event (file_info := unit) "in" "out" None MemCOS.boot
       = (r, s') /\
     r = Raise (ExHTTP 400) /\ status_code r = 400 /\
     event_stats s' = <["cron_error" := 0 + 1]> (event_stats MemCOS.boot) /\
     event_history s' = event_history MemCOS.boot /\
     buckets s' = buckets MemCOS.boot /\
     calls s' = calls MemCOS.boot /\
     world s' = world MemCOS.boot).
Proof.
  split; [reflexivity |]. split; [reflexivity |]. split; [reflexivity |].
  exact (falsy_body_rejected "in" "out" None MemCOS.boot 0 0
           eq_refl eq_refl eq_refl).
Defined.

(** X5 at work: the payload [{"a": 1}]. *)
Lemma notification_without_bucket_fails_witness :
  truthy (get_json_silent stray_payload) = true /\
  (forall items, get_json_silent stray_payload = JObj items ->
                 dict_get items "bucket" = None) /\
  exists r s',
    handle_cos_event (file_info := unit) "in" "out" stray_payload MemCOS.boot
      = (r, s') /\
    (r = Raise (ExKeyError "bucket") \/ r = Raise ExTypeError) /\
    status_code r = 500 /\
    event_stats s' = event_stats MemCOS.boot /\
    event_history s' = event_history MemCOS.boot /\
    buckets s' = buckets MemCOS.boot /\
    calls s' = calls MemCOS.boot.
Proof.
  assert (H : forall items, get_json_silent stray_payload = JObj items ->
                            dict_get items "bucket" = None)
    by (intros items [= <-]; reflexivity).
  split; [reflexivity |]. split; [exact H |].
  exact (notification_without_bucket_fails "in" "out" stray_payload
           MemCOS.boot eq_refl H).
Defined.

(** X6 at work: a sweep while the storage service cannot be reached. *)
Lemma sweep_listing_failure_propagates_witness :
  truthy (get_json_silent (Some (JObj [("tick", JInt 1)]))) = true /\
  event_stats DownCOS.boot !! "cron" = Some 0 /\
  fst (get_files_info "in" (snd (datetime_now (world DownCOS.boot))))
    = inl (mkCOSError "Unreachable") /\
  exists r s',
    handle_cron_event (file_info := unit) "in" "out"
      (Some (JObj [("tick", JInt 1)])) DownCOS.boot = (r, s') /\
    r = Raise (ExCOS (mkCOSError "Unreachable")) /\ status_code r = 500 /\
    event_stats s' = <["cron" := 0 + 1]> (event_stats DownCOS.boot) /\
    event_history s' = event_history DownCOS.boot /\
    buckets s' = buckets DownCOS.boot /\
    calls s' = calls DownCOS.boot ++ [CallGetFilesInfo "in"].
Proof.
  split; [reflexivity |]. split; [reflexivity |]. split; [reflexivity |].
  exact (sweep_listing_failure_propagates "in" "out"
           (Some (JObj [("tick", JInt 1)])) DownCOS.boot 0
           (mkCOSError "Unreachable") eq_refl eq_refl eq_refl).
Defined.

(** X11 at work: the page after a sweep of the demo bucket, which left
    ["b"] in both buckets. *)
Lemma get_files_merges_listings_witness :
  buckets (serve "in" "out" MemCOS.boot
                 (POST_events_cron (Some (JObj [("tick", JInt 1)]))))
    = ["in"; "out"] /\
  "in" <> "out" /\
  fst (get_files_info "in"
         (world (serve "in" "out" MemCOS.boot
                       (POST_events_cron (Some (JObj [("tick", JInt 1)]))))))
    = inr [("b", tt)] /\
  fst (get_files_info "out"
         (snd (get_files_info "in"
                 (world (serve "in" "out" MemCOS.boot
                               (POST_events_cron
                                  (Some (JObj [("tick", JInt 1)]))))))))
    = inr [("a", tt); ("b", tt); ("c", tt)] /\
  exists file_names files s',
    get_files (serve "in" "out" MemCOS.boot
                     (POST_events_cron (Some (JObj [("tick", JInt 1)]))))
      = (Return (FilesPage file_names files ["in"; "out"]), s') /\
    (forall f, inventory_entry files f "in" = dict_of [("b", tt)] !! f) /\
    (forall f, inventory_entry files f "out"
               = dict_of [("a", tt); ("b", tt); ("c", tt)] !! f) /\
    (forall f b, b <> "in" -> b <> "out" -> inventory_entry files f b = None) /\
    Sorted str_le file_names /\
    NoDup file_names /\
    (forall f, In f file_names <->
               In f (map fst [("b", tt)]) \/
               In f (map fst [("a", tt); ("b", tt); ("c", tt)])).
Proof.
  assert (Hne : "in" <> "out") by discriminate.
  split; [reflexivity |]. split; [exact Hne |].
  split; [reflexivity |]. split; [reflexivity |].
  exact (get_files_merges_listings
           (serve "in" "out" MemCOS.boot
                  (POST_events_cron (Some (JObj [("tick", JInt 1)]))))
           "in" "out" [("b", tt)] [("a", tt); ("b", tt); ("c", tt)]
           eq_refl Hne eq_refl eq_refl).
Defined.

(** X13 at work: the demo command line over the demo environment. *)
Lemma start_server_settings_witness :
  start_server demo_options demo_environ
    = Serving INFO
        (mkSettings "secret" "instance-1" "https://iam.example"
                    "https://cos.example")
        "out" "in" 8080 /\
  log_levels !! opt_log_level demo_options = Some INFO /\
  settled (opt_cos_endpoint demo_options) demo_environ "COS_ENDPOINT"
          "https://cos.example" /\
  settled (opt_api_key demo_options) demo_environ "APIKEY" "secret" /\
  settled (opt_destination_bucket demo_options) demo_environ
          "DESTINATION_BUCKET" "out" /\
  settled (opt_source_bucket demo_options) demo_environ "SOURCE_BUCKET" "in" /\
  settled (opt_cos_instance_id demo_options) demo_environ "COS_INSTANCE_ID"
          "instance-1" /\
  settled (opt_iam_endpoint demo_options) demo_environ "IAM_ENDPOINT"
          "https://iam.example" /\
  8080 = opt_port demo_options.
Proof.
  split; [reflexivity |].
  exact (start_server_settings demo_options demo_environ INFO
           (mkSettings "secret" "instance-1" "https://iam.example"
                       "https://cos.example")
           "out" "in" 8080 eq_refl).
Defined.

(** X14 at work: the same without [SOURCE_BUCKET] in the environment. *)
Lemma start_server_refusal_names_first_missing_witness :
  start_server demo_options (delete "SOURCE_BUCKET" demo_environ)
    = Refused INFO "Must specify a source bucket" /\
  log_levels !! opt_log_level demo_options = Some INFO /\
  exists found option name rest,
    required_settings
      = found ++ (option, name, "Must specify a source bucket") :: rest /\
    str_truthy (or_environ (option demo_options)
                           (delete "SOURCE_BUCKET" demo_environ) name)
      = false /\
    Forall (fun '(option', name', _) =>
              str_truthy (or_environ (option' demo_options)
                                     (delete "SOURCE_BUCKET" demo_environ)
                                     name') = true)
           found.
Proof.
  split; [reflexivity |].
  exact (start_server_refusal_names_first_missing demo_options
           (delete "SOURCE_BUCKET" demo_environ) INFO
           "Must specify a source bucket" eq_refl).
Defined.
